(** * Review analysis dashboard: the data pipeline of [utils.py] and of the
    keyword-matching page, embedded as Rocq functions.

    Conventions of the embedding.
    - A Python [str] is a Rocq [string]: the sequence of its UTF-8 bytes
      (a [str] with an unpaired surrogate has no such form and is not
      represented).  Splitting on [','] and substring search agree with
      Python on such sequences; [str.lower] and [str.strip] are modelled
      on the ASCII range (bytes above 127 are neither case-mapped nor
      treated as white space).
    - Numbers are exact rationals; binary floating-point rounding is not
      modelled.  The float values [nan] and [inf] are explicit constructors.
    - An exception is a value of [exn]; code that can raise returns [res A].
      [NotModelled] is no Python exception: it marks an input the embedding
      does not represent.
    - A pandas table is a list of named columns, a column is a list of
      cells.  A missing cell ([NaN], [None], [NaT]) is [VNaN].  dtype
      questions are answered cell by cell: a column is a column of
      timestamps when each of its cells is a timestamp or missing. *)

From Stdlib Require Import ZArith QArith Qround Qabs List String Ascii Bool Lia Lqa Permutation.
From stdpp Require Import gmap strings.
Import ListNotations.
Local Open Scope string_scope.
Local Open Scope list_scope.

(* ================================================================== *)
(** ** Python values, exceptions and string methods *)
(* ================================================================== *)

Module Py.

Inductive exn : Type :=
| KeyError (key : string)
| TypeError
| ValueError
| OverflowError
| AttributeError
| ZeroDivisionError
| JSONDecodeError
| NotModelled.

Inductive res (A : Type) : Type :=
| Ok (a : A)
| Raise (e : exn).
Arguments Ok {A} a.
Arguments Raise {A} e.

Definition bind {A B : Type} (c : res A) (k : A -> res B) : res B :=
  match c with
  | Ok a => k a
  | Raise e => Raise e
  end.

(** [try: c  except: h] with a bare [except]. *)
Definition try_except {A : Type} (c : res A) (h : exn -> res A) : res A :=
  match c with
  | Ok a => Ok a
  | Raise e => h e
  end.

Definition raises {A : Type} (c : res A) : Prop := exists e, c = Raise e.

(** A Python float: [nan], [inf], [-inf] or a finite number. *)
Inductive pyfloat : Type :=
| FNaN
| FInf (negative : bool)
| FFin (q : Q).

(** [x >= y] and [x == y] on floats; every comparison with [nan] is
    [False]. *)
Definition float_ge (x y : pyfloat) : bool :=
  match x, y with
  | FNaN, _ | _, FNaN => false
  | FInf false, _ => true
  | FInf true, FInf true => true
  | FInf true, _ => false
  | FFin _, FInf true => true
  | FFin _, FInf false => false
  | FFin a, FFin b => Qle_bool b a
  end.

Definition float_eq (x y : pyfloat) : bool :=
  match x, y with
  | FNaN, _ | _, FNaN => false
  | FInf a, FInf b => Bool.eqb a b
  | FFin a, FFin b => Qeq_bool a b
  | _, _ => false
  end.

(** *** [str] methods *)

Definition is_space (c : ascii) : bool :=
  let n := N_of_ascii c in
  ((9 <=? n) && (n <=? 13) || (28 <=? n) && (n <=? 32))%N.

Definition lower_char (c : ascii) : ascii :=
  let n := N_of_ascii c in
  if ((65 <=? n) && (n <=? 90))%N then ascii_of_N (n + 32) else c.

Fixpoint lower (s : string) : string :=
  match s with
  | EmptyString => EmptyString
  | String c s' => String (lower_char c) (lower s')
  end.

Fixpoint lstrip (s : string) : string :=
  match s with
  | EmptyString => EmptyString
  | String c s' => if is_space c then lstrip s' else s
  end.

Definition is_empty (s : string) : bool :=
  match s with
  | EmptyString => true
  | String _ _ => false
  end.

Fixpoint rstrip (s : string) : string :=
  match s with
  | EmptyString => EmptyString
  | String c s' =>
      let r := rstrip s' in
      if is_space c && is_empty r then EmptyString else String c r
  end.

Definition strip (s : string) : string := rstrip (lstrip s).

(** [s.split(sep)] for a one-character separator: never an empty list. *)
Fixpoint split (sep : ascii) (s : string) : list string :=
  match s with
  | EmptyString => [EmptyString]
  | String c s' =>
      if Ascii.eqb c sep then EmptyString :: split sep s'
      else match split sep s' with
           | [] => [String c EmptyString]
           | piece :: pieces => String c piece :: pieces
           end
  end.

Fixpoint startswith (p s : string) : bool :=
  match p, s with
  | EmptyString, _ => true
  | String _ _, EmptyString => false
  | String a p', String b s' => Ascii.eqb a b && startswith p' s'
  end.

(** [sub in s] *)
Fixpoint contains (s sub : string) : bool :=
  startswith sub s ||
  match s with
  | EmptyString => false
  | String _ s' => contains s' sub
  end.

(** [sep.join(l)] *)
Fixpoint join (sep : string) (l : list string) : string :=
  match l with
  | [] => EmptyString
  | [x] => x
  | x :: l' => x +:+ sep +:+ join sep l'
  end.


End Py.
Export Py.

Declare Scope py_scope.
Delimit Scope py_scope with py.
Notation "'let*' x ':=' c 'in' k" := (bind c (fun x => k))
  (at level 10, x name, c at level 100, k at level 200) : py_scope.
Local Open Scope py_scope.

(* ================================================================== *)
(** ** Tables *)
(* ================================================================== *)

Module Frame.

Inductive value : Type :=
| VNaN
| VStr (s : string)
| VNum (q : Q)
| VDate (year month day : Z)
| VBool (b : bool).

(** [pd.isna] *)
Definition isna (v : value) : bool :=
  match v with
  | VNaN => true
  | _ => false
  end.

Definition Series := list value.
Definition DataFrame := list (string * Series).

Definition columns (df : DataFrame) : list string := map fst df.

(** [col in df.columns] *)
Definition has_column (df : DataFrame) (col : string) : bool :=
  existsb (String.eqb col) (columns df).

(** [len(df)] *)
Definition len (df : DataFrame) : nat :=
  match df with
  | [] => 0
  | (_, s) :: _ => List.length s
  end.

(** [df[col]] *)
Fixpoint getitem (df : DataFrame) (col : string) : res Series :=
  match df with
  | [] => Raise (KeyError col)
  | (name, s) :: df' => if String.eqb name col then Ok s else getitem df' col
  end.

(** [df[col] = s]: replaces the column in place, or appends it. *)
Fixpoint setitem (df : DataFrame) (col : string) (s : Series) : DataFrame :=
  match df with
  | [] => [(col, s)]
  | (name, s0) :: df' =>
      if String.eqb name col then (name, s) :: df'
      else (name, s0) :: setitem df' col s
  end.

End Frame.
Export Frame.

(* ================================================================== *)
(** ** Arithmetic helpers *)
(* ================================================================== *)

Module Num.

(** [a / b] on Python integers. *)
Definition truediv (a b : Z) : res Q :=
  if (b =? 0)%Z then Raise ZeroDivisionError
  else Ok (inject_Z a / inject_Z b)%Q.

(** Rounding to the nearest integer, ties to the even neighbour. *)
Definition round_half_even (x : Q) : Z :=
  let f := Qfloor x in
  match (x - inject_Z f ?= 1 # 2)%Q with
  | Lt => f
  | Gt => (f + 1)%Z
  | Eq => if Z.even f then f else (f + 1)%Z
  end.

(** [round(x, 2)] *)
Definition round2 (x : Q) : Q :=
  Qred (inject_Z (round_half_even (x * 100)) / 100)%Q.

Fixpoint Qsum (l : list Q) : Q :=
  match l with
  | [] => 0%Q
  | x :: l' => (x + Qsum l')%Q
  end.

End Num.
Export Num.

(* ================================================================== *)
(** ** pages/3_Keyword_Match.py: matcher and classification engine *)
(* ================================================================== *)

Module KeywordMatch.

Record stat : Type := { matched : Z; percentage : Q }.

(** The name of a category's boolean column, [f'Is {category}']. *)
Definition column_name (category : string) : string := "Is " +:+ category.

(** [Series.sum()] of a boolean column: the number of [True] cells (the sum
    of an empty column is the Python integer 0). *)
Fixpoint sum_true (s : Series) : Z :=
  match s with
  | [] => 0%Z
  | VBool true :: s' => (1 + sum_true s')%Z
  | _ :: s' => sum_true s'
  end.

(** The page's check of the uploaded file. *)
Definition required_columns : list string := ["ID"; "Content"; "Review Type"].

Definition rejection_message : string :=
  "❌ 请上传包含ID、Content和Review Type列的预处理文件！".

(** [None]: the file is accepted and the analysis runs; [Some m]: the page
    shows [m] and returns. *)
Definition validate (df : DataFrame) : option string :=
  if forallb (has_column df) required_columns then None
  else Some rejection_message.

Section WithStr.

(** [str(x)] of a cell that is not already a string: Python's builtin. *)
Variable str_of_scalar : value -> string.

Definition py_str (v : value) : string :=
  match v with
  | VStr s => s
  | _ => str_of_scalar v
  end.

Definition match_keywords (text : value) (keywords : list string) : bool :=
  if isna text then false
  else
    let text := lower (py_str text) in
    existsb (fun keyword => contains text (strip (lower keyword))) keywords.

(** The first loop of [analyze_reviews]: one boolean column per category. *)
Fixpoint add_category_columns (df results : DataFrame)
    (categories : list (string * string)) : res DataFrame :=
  match categories with
  | [] => Ok results
  | (category, raw) :: rest =>
      let keywords := map strip (split "," raw) in
      let* content := getitem df "Content" in
      add_category_columns df
        (setitem results (column_name category)
           (map (fun x => VBool (match_keywords x keywords)) content))
        rest
  end.

(** The second loop: matched count and percentage per category. *)
Fixpoint collect_stats (results : DataFrame) (nrows : nat)
    (categories : list (string * string)) : res (list (string * stat)) :=
  match categories with
  | [] => Ok []
  | (category, _) :: rest =>
      let* col := getitem results (column_name category) in
      let matched := sum_true col in
      let* ratio := truediv matched (Z.of_nat nrows) in
      let* stats := collect_stats results nrows rest in
      Ok ((category,
           {| matched := matched; percentage := round2 (ratio * 100) |})
          :: stats)
  end.

Definition analyze_reviews (df : DataFrame) (categories : list (string * string))
    : res (DataFrame * list (string * stat)) :=
  let results : DataFrame := [] in
  let* ids := getitem df "ID" in
  let results := setitem results "ID" ids in
  let* content := getitem df "Content" in
  let results := setitem results "Content" content in
  let* types := getitem df "Review Type" in
  let results := setitem results "Original Review Type" types in
  let* results := add_category_columns df results categories in
  let* stats := collect_stats results (len df) categories in
  Ok (results, stats).

End WithStr.

(** The keyword list as the category editor counts it: empty pieces are
    dropped ([[k.strip() for k in keywords.split(',') if k.strip()]]). *)
Definition editor_keyword_list (raw : string) : list string :=
  map strip (List.filter (fun k => negb (is_empty (strip k))) (split "," raw)).

End KeywordMatch.

(* ================================================================== *)
(** ** Ordering of group keys *)
(* ================================================================== *)

Module Keys.

Definition rank (v : value) : Z :=
  match v with
  | VBool _ => 0
  | VNum _ => 1
  | VDate _ _ _ => 2
  | VStr _ => 3
  | VNaN => 4
  end.

(** The order in which pandas lists group keys: numbers by value, strings
    by code point.  Keys of different kinds are ordered by [rank] (a
    convention of the embedding, pandas leaves such keys unsorted). *)
Definition value_compare (a b : value) : comparison :=
  match a, b with
  | VStr x, VStr y => String.compare x y
  | VNum x, VNum y => Qcompare x y
  | VBool x, VBool y => Bool.compare x y
  | VDate y1 m1 d1, VDate y2 m2 d2 =>
      match Z.compare y1 y2 with
      | Eq => match Z.compare m1 m2 with
              | Eq => Z.compare d1 d2
              | c => c
              end
      | c => c
      end
  | _, _ => Z.compare (rank a) (rank b)
  end.

Definition same_key (a b : value) : bool :=
  match value_compare a b with
  | Eq => true
  | _ => false
  end.

(** Two keys are the same group exactly when they are the same kind of
    cell with equal content (numbers up to their value). *)
Definition key_eqv (a b : value) : Prop :=
  match a, b with
  | VNaN, VNaN => True
  | VStr x, VStr y => x = y
  | VNum x, VNum y => (x == y)%Q
  | VBool x, VBool y => x = y
  | VDate y1 m1 d1, VDate y2 m2 d2 => y1 = y2 /\ m1 = m2 /\ d1 = d2
  | _, _ => False
  end.

Definition pair_compare (a b : value * value) : comparison :=
  match value_compare (fst a) (fst b) with
  | Eq => value_compare (snd a) (snd b)
  | c => c
  end.

Definition same_pair (a b : value * value) : bool :=
  same_key (fst a) (fst b) && same_key (snd a) (snd b).

Section SortUniq.

Context {A : Type}.
Variable cmp : A -> A -> comparison.

Fixpoint insert_uniq (x : A) (l : list A) : list A :=
  match l with
  | [] => [x]
  | y :: l' =>
      match cmp x y with
      | Lt => x :: l
      | Eq => l
      | Gt => y :: insert_uniq x l'
      end
  end.

(** Distinct keys in ascending order. *)
Definition sort_uniq (l : list A) : list A :=
  fold_right insert_uniq [] l.

End SortUniq.

Definition notna (v : value) : bool := negb (isna v).

(** The cells of [s] on the rows whose key is [g]. *)
Definition rows_of {B : Type} (keys : Series) (g : value) (s : list B) : list B :=
  map snd (List.filter (fun row => same_key (fst row) g) (combine keys s)).

(** [s.value_counts()]: the distinct non-missing values with their number
    of occurrences, most frequent first (values with equal counts in
    order of first appearance; pandas does not fix their order). *)
Fixpoint distinct (s : Series) : Series :=
  match s with
  | [] => []
  | v :: s' => v :: List.filter (fun x => negb (same_key v x)) (distinct s')
  end.

Definition count_key (k : value) (s : Series) : Z :=
  Z.of_nat (List.length (List.filter (same_key k) s)).

Fixpoint insert_desc (x : value * Z) (l : list (value * Z)) : list (value * Z) :=
  match l with
  | [] => [x]
  | y :: l' => if (snd y <=? snd x)%Z then x :: l else y :: insert_desc x l'
  end.

Definition value_counts (s : Series) : list (value * Z) :=
  fold_right insert_desc []
    (map (fun k => (k, count_key k s)) (distinct (List.filter notna s))).

End Keys.
Export Keys.

(* ================================================================== *)
(** ** utils.py *)
(* ================================================================== *)

Module Utils.

(** *** process_data and the review-type classifier *)

(** A Python object handed to [float()]. *)
Inductive pyobj : Type :=
| PNone
| PBool (b : bool)
| PInt (z : Z)
| PFloat (f : pyfloat)
| PStr (s : string)
| PObject.

(** Integers from this magnitude on do not fit a double: [float()] raises
    [OverflowError]. *)
Definition float_overflow_bound : Z := 2 ^ 1024 - 2 ^ 970.

Inductive outcome : Type :=
| Rejected (message : string)
| Processed (df : DataFrame).

Definition required_columns : list string :=
  ["Asin"; "Title"; "Content"; "Model"; "Rating"; "Date"].

Definition column_order : list string :=
  ["ID"; "Asin"; "Title"; "Content"; "Model"; "Rating"; "Date"; "Review Type"].

Definition text_columns : list string := ["Title"; "Content"; "Model"].

Definition missing_column_message (col : string) : string :=
  "缺少必要的列: " +:+ col.

(** The loop over [required_columns]: the first one the table lacks. *)
Fixpoint first_missing (df : DataFrame) (cols : list string) : option string :=
  match cols with
  | [] => None
  | col :: cols' =>
      if has_column df col then first_missing df cols' else Some col
  end.

(** [df[cols]]: the listed columns, in the listed order. *)
Fixpoint select (df : DataFrame) (cols : list string) : res DataFrame :=
  match cols with
  | [] => Ok []
  | col :: cols' =>
      let* s := getitem df col in
      let* rest := select df cols' in
      Ok ((col, s) :: rest)
  end.

(** [df.insert(0, col, s)] *)
Definition insert_first (df : DataFrame) (col : string) (s : Series) : res DataFrame :=
  if has_column df col then Raise ValueError else Ok ((col, s) :: df).

(** [range(1, n + 1)] as a column. *)
Definition id_column (n : nat) : Series :=
  map (fun i => VNum (inject_Z (Z.of_nat i))) (seq 1 n).

(** The object [Series.apply] hands to the function for a cell. *)
Definition pyobj_of_value (v : value) : pyobj :=
  match v with
  | VNaN => PFloat FNaN
  | VNum q => PFloat (FFin q)
  | VStr s => PStr s
  | VBool b => PBool b
  | VDate _ _ _ => PObject
  end.

Section Conversions.

(** Python's and pandas' scalar conversions, taken as given:
    [float(s)] on a string ([None]: it raises [ValueError]);
    the number pandas reads in a string ([None]: it cannot);
    the timestamp pandas reads in a cell ([None]: it cannot);
    [str(x)] of a cell that is not a string. *)
Variable parse_float : string -> option pyfloat.
Variable parse_number : string -> option Q.
Variable parse_datetime : value -> option (Z * Z * Z).
Variable str_of_scalar : value -> string.

(** [float(x)] *)
Definition py_float (x : pyobj) : res pyfloat :=
  match x with
  | PNone => Raise TypeError
  | PObject => Raise TypeError
  | PBool b => Ok (FFin (if b then 1 else 0))
  | PInt z =>
      if (Z.abs z <? float_overflow_bound)%Z then Ok (FFin (inject_Z z))
      else Raise OverflowError
  | PFloat f => Ok f
  | PStr s =>
      match parse_float s with
      | Some f => Ok f
      | None => Raise ValueError
      end
  end.

Definition get_review_type (rating : pyobj) : res string :=
  try_except
    (let* rating := py_float rating in
     if float_ge rating (FFin 4) then Ok "positive"
     else if float_eq rating (FFin 3) then Ok "neutral"
     else Ok "negative")
    (fun _ => Ok "unknown").

(** [pd.to_numeric(s, errors='coerce')], cell by cell. *)
Definition to_numeric_coerce (v : value) : value :=
  match v with
  | VNum q => VNum q
  | VBool b => VNum (if b then 1 else 0)
  | VStr s =>
      match parse_number s with
      | Some q => VNum q
      | None => VNaN
      end
  | VNaN => VNaN
  | VDate _ _ _ => VNaN
  end.

(** [pd.to_datetime(s, errors='coerce')], cell by cell. *)
Definition to_datetime_coerce (v : value) : value :=
  match v with
  | VDate y m d => VDate y m d
  | VNaN => VNaN
  | _ =>
      match parse_datetime v with
      | Some (y, m, d) => VDate y m d
      | None => VNaN
      end
  end.

(** [s.astype(str).str.strip()], cell by cell ([nan] for a missing
    cell). *)
Definition astype_str_strip (v : value) : value :=
  match v with
  | VStr s => VStr (strip s)
  | VNaN => VStr "nan"
  | _ => VStr (strip (str_of_scalar v))
  end.

(** [df[col] = f(df[col])] *)
Definition update_column (df : DataFrame) (col : string) (f : value -> value)
    : res DataFrame :=
  let* s := getitem df col in
  Ok (setitem df col (map f s)).

Fixpoint strip_text_columns (df : DataFrame) (cols : list string) : res DataFrame :=
  match cols with
  | [] => Ok df
  | col :: cols' =>
      let* df := update_column df col astype_str_strip in
      strip_text_columns df cols'
  end.

(** [s.apply(get_review_type)] *)
Fixpoint apply_review_type (s : Series) : res Series :=
  match s with
  | [] => Ok []
  | v :: s' =>
      let* t := get_review_type (pyobj_of_value v) in
      let* rest := apply_review_type s' in
      Ok (VStr t :: rest)
  end.

Definition process_data (df : DataFrame) : res outcome :=
  match first_missing df required_columns with
  | Some col => Ok (Rejected (missing_column_message col))
  | None =>
      let* df := select df required_columns in
      let* df := update_column df "Rating" to_numeric_coerce in
      let* df := update_column df "Date" to_datetime_coerce in
      let* df := strip_text_columns df text_columns in
      let* df := insert_first df "ID" (id_column (len df)) in
      let* rating := getitem df "Rating" in
      let* types := apply_review_type rating in
      let df := setitem df "Review Type" types in
      let* df := select df column_order in
      Ok (Processed df)
  end.

End Conversions.

(** *** Float arithmetic of the aggregations *)

(** [a / b] on numpy integers: no exception, [nan] or [inf] on a zero
    denominator. *)
Definition np_truediv (a b : Z) : pyfloat :=
  if (b =? 0)%Z then
    (if (a =? 0)%Z then FNaN else FInf (a <? 0)%Z)
  else FFin (Qred (inject_Z a / inject_Z b))%Q.

Definition float_times_100 (x : pyfloat) : pyfloat :=
  match x with
  | FFin q => FFin (Qred (q * 100))%Q
  | other => other
  end.

Definition float_round2 (x : pyfloat) : pyfloat :=
  match x with
  | FFin q => FFin (round2 q)
  | other => other
  end.



Definition Zsum (l : list Z) : Z := fold_right Z.add 0%Z l.

(** The square root of [v], rounded to two decimals (ties to even). *)
Definition sqrt_round2 (v : Q) : Q :=
  let f := Z.sqrt (Qfloor (v * 10000)) in
  let r :=
    match (v * 40000 ?= inject_Z ((2 * f + 1) * (2 * f + 1)))%Q with
    | Lt => f
    | Gt => (f + 1)%Z
    | Eq => if Z.even f then f else (f + 1)%Z
    end in
  Qred (inject_Z r / 100)%Q.

(** *** calculate_review_stats *)

Definition calculate_review_stats (df : DataFrame)
    : res (list (value * (Z * pyfloat)) * list (value * Z) * list (value * pyfloat)) :=
  let* types := getitem df "Review Type" in
  let review_counts := value_counts types in
  let review_percentages :=
    map (fun kc =>
           (fst kc,
            float_round2
              (float_times_100 (np_truediv (snd kc) (Z.of_nat (len df))))))
        review_counts in
  let stats_df :=
    map (fun kc =>
           (fst kc,
            (snd kc,
             float_round2
               (float_times_100 (np_truediv (snd kc) (Z.of_nat (len df)))))))
        review_counts in
  Ok (stats_df, review_counts, review_percentages).

(** *** analyze_by_group *)

Record group_stat : Type := {
  count : Z;
  mean : pyfloat;
  std : pyfloat;
  type_counts : list (value * Z)
}.

Record distribution : Type := {
  dist_columns : list value;
  dist_rows : list (value * list pyfloat)
}.

Inductive group_by_arg : Type :=
| ByName (col : string)
| ByList (cols : list string).

(** One cell of [a + b] on object columns: a missing operand gives a
    missing result, two strings are concatenated. *)
Definition str_add (a b : value) : res value :=
  match a, b with
  | VNaN, _ | _, VNaN => Ok VNaN
  | VStr x, VStr y => Ok (VStr (x +:+ y))
  | _, _ => Raise TypeError
  end.


Fixpoint add_scalar (s : Series) (b : value) : res Series :=
  match s with
  | [] => Ok []
  | a :: s' =>
      let* c := str_add a b in
      let* rest := add_scalar s' b in
      Ok (c :: rest)
  end.

Fixpoint add_series (s t : Series) : res Series :=
  match s, t with
  | a :: s', b :: t' =>
      let* c := str_add a b in
      let* rest := add_series s' t' in
      Ok (c :: rest)
  | _, _ => Ok []
  end.

(** [df['Asin'] + ' - ' + df['Model']] *)
Definition group_column (df : DataFrame) : res Series :=
  let* asin := getitem df "Asin" in
  let* left := add_scalar asin (VStr " - ") in
  let* model := getitem df "Model" in
  add_series left model.

(** The non-missing numbers of a column; a cell that is no number makes
    [mean] raise. *)
Fixpoint numbers (s : Series) : res (list Q) :=
  match s with
  | [] => Ok []
  | VNaN :: s' => numbers s'
  | VNum q :: s' => let* rest := numbers s' in Ok (q :: rest)
  | VBool b :: s' =>
      let* rest := numbers s' in Ok ((if b then 1 else 0)%Q :: rest)
  | _ :: _ => Raise TypeError
  end.

Definition mean_of (xs : list Q) : pyfloat :=
  match xs with
  | [] => FNaN
  | _ => FFin (Qred (Qsum xs / inject_Z (Z.of_nat (List.length xs))))%Q
  end.

(** The sample variance (denominator n - 1). *)
Definition variance (xs : list Q) : Q :=
  let n := inject_Z (Z.of_nat (List.length xs)) in
  let m := (Qsum xs / n)%Q in
  (Qsum (map (fun x => (x - m) * (x - m)) xs) / (n - 1))%Q.

(** [std] followed by [round(2)]: [nan] below two values. *)
Definition std_round2 (xs : list Q) : pyfloat :=
  if (List.length xs <? 2)%nat then FNaN
  else FFin (sqrt_round2 (variance xs)).

(** [df.groupby(key).agg({'Rating': ['count', 'mean', 'std'],
    'Review Type': value_counts().to_dict()}).round(2)] *)
Fixpoint agg_groups (keys rating types : Series) (groups : list value)
    : res (list (value * group_stat)) :=
  match groups with
  | [] => Ok []
  | g :: groups' =>
      let* xs := numbers (rows_of keys g rating) in
      let* rest := agg_groups keys rating types groups' in
      Ok ((g, {| count := Z.of_nat (List.length xs);
                 mean := float_round2 (mean_of xs);
                 std := std_round2 xs;
                 type_counts := value_counts (rows_of keys g types) |})
          :: rest)
  end.

Definition group_stats_by (df : DataFrame) (key : string)
    : res (list (value * group_stat)) :=
  let* keys := getitem df key in
  let* rating := getitem df "Rating" in
  let* types := getitem df "Review Type" in
  agg_groups keys rating types (sort_uniq value_compare (List.filter notna keys)).

(** [df.groupby([key, 'Rating']).size().unstack(fill_value=0)]: the rows
    whose key and rating are both present, counted per (key, rating). *)
Definition rated_rows (keys rating : Series) : list (value * value) :=
  List.filter (fun row => notna (fst row) && notna (snd row)) (combine keys rating).

Definition cell_count (rows : list (value * value)) (g r : value) : Z :=
  Z.of_nat (List.length (List.filter (same_pair (g, r)) rows)).

Definition rating_dist_counts (rows : list (value * value))
    : list value * list (value * list Z) :=
  let ratings := sort_uniq value_compare (map snd rows) in
  (ratings,
   map (fun g => (g, map (cell_count rows g) ratings))
       (sort_uniq value_compare (map fst rows))).

(** [rating_dist.div(rating_dist.sum(axis=1), axis=0) * 100] *)
Definition div_by_row_sum (row : list Z) : list pyfloat :=
  map (fun c => float_times_100 (np_truediv c (Zsum row))) row.

Definition rating_dist_pct_by (df : DataFrame) (key : string) : res distribution :=
  let* keys := getitem df key in
  let* rating := getitem df "Rating" in
  let rating_dist := rating_dist_counts (rated_rows keys rating) in
  Ok {| dist_columns := fst rating_dist;
        dist_rows :=
          map (fun row => (fst row, div_by_row_sum (snd row))) (snd rating_dist) |}.

Definition analysis : Type :=
  (list (value * group_stat) * distribution * string)%type.

Definition analyze_key (df : DataFrame) (key : string) : res analysis :=
  let* group_stats := group_stats_by df key in
  let* rating_dist_pct := rating_dist_pct_by df key in
  Ok (group_stats, rating_dist_pct, key).

(** The caller's tables live in a store; a function receives a reference
    and what it assigns to the table is seen by the caller. *)
Definition analyze_by_group (df : positive) (group_by : group_by_arg)
    (h : gmap positive DataFrame) : res analysis * gmap positive DataFrame :=
  match h !! df with
  | None => (Raise NotModelled, h)
  | Some table =>
      match group_by with
      | ByList _ =>
          match group_column table with
          | Raise e => (Raise e, h)
          | Ok group =>
              let table := setitem table "Group" group in
              (analyze_key table "Group", <[df := table]> h)
          end
      | ByName _ => (analyze_key table "Asin", h)
      end
  end.

(** *** create_rating_trend_chart *)

Definition digit (n : Z) : ascii := ascii_of_N (48 + Z.to_N (n mod 10)).

(** [str] of a monthly period: four digits of year, two of month. *)
Definition month_string (y m : Z) : string :=
  String (digit (y / 1000)) (String (digit (y / 100)) (String (digit (y / 10))
    (String (digit y) (String "-" (String (digit (m / 10))
      (String (digit m) EmptyString)))))).

(** One cell of [s.dt.to_period('M').astype(str)]. *)
Definition month_label (v : value) : value :=
  match v with
  | VDate y m _ => VStr (month_string y m)
  | _ => VStr "NaT"
  end.

(** The [.dt] accessor exists on a column of timestamps (missing cells
    allowed). *)
Definition is_datetime (s : Series) : bool :=
  forallb (fun v => match v with VDate _ _ _ | VNaN => true | _ => false end) s.

Definition month_column (df : DataFrame) : res Series :=
  let* dates := getitem df "Date" in
  if is_datetime dates then Ok (map month_label dates)
  else Raise AttributeError.

Definition bucket_rows (months groups rating : Series) (key : value * value)
    : Series :=
  map snd (List.filter (fun row => same_pair (fst row) key)
             (combine (combine months groups) rating)).

Fixpoint mean_buckets (months groups rating : Series)
    (keys : list (value * value)) : res (list (value * value * pyfloat)) :=
  match keys with
  | [] => Ok []
  | key :: keys' =>
      let* xs := numbers (bucket_rows months groups rating key) in
      let* rest := mean_buckets months groups rating keys' in
      Ok ((fst key, snd key, mean_of xs) :: rest)
  end.

(** [df.groupby(['Month', group_by])['Rating'].mean().reset_index()] *)
Definition trend_data (df : DataFrame) (group_by : string)
    : res (list (value * value * pyfloat)) :=
  let* months := getitem df "Month" in
  let* groups := getitem df group_by in
  let* rating := getitem df "Rating" in
  mean_buckets months groups rating
    (sort_uniq pair_compare
       (List.filter (fun k => notna (fst k) && notna (snd k)) (combine months groups))).

(** The function returns the line chart of [trend_data]; the embedding
    returns the data the chart is drawn from. *)
Definition create_rating_trend_chart (df : positive) (group_by : string)
    (h : gmap positive DataFrame)
    : res (list (value * value * pyfloat)) * gmap positive DataFrame :=
  match h !! df with
  | None => (Raise NotModelled, h)
  | Some table =>
      match month_column table with
      | Raise e => (Raise e, h)
      | Ok months =>
          let table := setitem table "Month" months in
          (trend_data table group_by, <[df := table]> h)
      end
  end.

End Utils.

(* ================================================================== *)
(** ** pages/3_Keyword_Match.py: the category store and its JSON file *)
(* ================================================================== *)

Module CategoryStore.

(** A Python [dict] from category name to keyword string: an association
    list in insertion order, with distinct keys. *)
Definition dict : Type := list (string * string).

Definition quote : ascii := "034"%char.
Definition backslash : ascii := "092"%char.
Definition newline : ascii := "010"%char.

(** *** json.dump(categories, f, ensure_ascii=False, indent=2) *)

Definition hex_digit (n : N) : ascii :=
  if (n <? 10)%N then ascii_of_N (48 + n) else ascii_of_N (87 + n).

(** The encoder's escape table: the quote, the backslash and the control
    characters below 32; every other byte is written as it is. *)
Definition escape_char (c : ascii) : string :=
  let n := N_of_ascii c in
  if (n =? 34)%N then String backslash (String quote EmptyString)
  else if (n =? 92)%N then String backslash (String backslash EmptyString)
  else if (n =? 8)%N then String backslash "b"
  else if (n =? 12)%N then String backslash "f"
  else if (n =? 10)%N then String backslash "n"
  else if (n =? 13)%N then String backslash "r"
  else if (n =? 9)%N then String backslash "t"
  else if (n <? 32)%N then
    String backslash
      (String "u" (String "0" (String "0"
        (String (hex_digit (n / 16)) (String (hex_digit (n mod 16)) EmptyString)))))
  else String c EmptyString.

Fixpoint escape (s : string) : string :=
  match s with
  | EmptyString => EmptyString
  | String c s' => escape_char c +:+ escape s'
  end.

Definition encode_basestring (s : string) : string :=
  String quote (escape s +:+ String quote EmptyString).

(** A string in its encoded form, followed by [rest]. *)
Definition encoded (s rest : string) : string :=
  String quote (escape s +:+ String quote rest).

Definition encode_item (kv : string * string) : string :=
  encode_basestring (fst kv) +:+ ": " +:+ encode_basestring (snd kv).

Definition item_separator : string := String "," (String newline "  ").

Fixpoint encode_items (items : dict) : string :=
  match items with
  | [] => EmptyString
  | [kv] => encode_item kv
  | kv :: rest => encode_item kv +:+ item_separator +:+ encode_items rest
  end.

Definition json_dumps (d : dict) : string :=
  match d with
  | [] => "{}"
  | _ =>
      String "{" (String newline "  ") +:+ encode_items d
      +:+ String newline "}"
  end.

(** *** json.load(f) *)

Definition is_json_space (c : ascii) : bool :=
  let n := N_of_ascii c in
  ((n =? 32) || (n =? 9) || (n =? 10) || (n =? 13))%N.

Fixpoint skip_space (s : string) : string :=
  match s with
  | EmptyString => EmptyString
  | String c s' => if is_json_space c then skip_space s' else s
  end.

Definition hex_value (c : ascii) : option N :=
  let n := N_of_ascii c in
  if ((48 <=? n) && (n <=? 57))%N then Some (n - 48)%N
  else if ((97 <=? n) && (n <=? 102))%N then Some (n - 87)%N
  else if ((65 <=? n) && (n <=? 70))%N then Some (n - 55)%N
  else None.

Definition code_unit (h1 h2 h3 h4 : ascii) : option N :=
  match hex_value h1, hex_value h2, hex_value h3, hex_value h4 with
  | Some a, Some b, Some c, Some d => Some (((a * 16 + b) * 16 + c) * 16 + d)%N
  | _, _, _, _ => None
  end.

(** The UTF-8 bytes of a code point. *)
Definition utf8 (cp : N) : string :=
  if (cp <? 128)%N then String (ascii_of_N cp) EmptyString
  else if (cp <? 2048)%N then
    String (ascii_of_N (192 + cp / 64))
      (String (ascii_of_N (128 + cp mod 64)) EmptyString)
  else if (cp <? 65536)%N then
    String (ascii_of_N (224 + cp / 4096))
      (String (ascii_of_N (128 + (cp / 64) mod 64))
        (String (ascii_of_N (128 + cp mod 64)) EmptyString))
  else
    String (ascii_of_N (240 + cp / 262144))
      (String (ascii_of_N (128 + (cp / 4096) mod 64))
        (String (ascii_of_N (128 + (cp / 64) mod 64))
          (String (ascii_of_N (128 + cp mod 64)) EmptyString))).

Definition is_high_surrogate (u : N) : bool := ((55296 <=? u) && (u <=? 56319))%N.
Definition is_low_surrogate (u : N) : bool := ((56320 <=? u) && (u <=? 57343))%N.

(** The character a one-letter escape stands for. *)
Definition unescape (e : ascii) : option ascii :=
  let n := N_of_ascii e in
  if (n =? 34)%N then Some quote
  else if (n =? 92)%N then Some backslash
  else if (n =? 47)%N then Some "/"%char
  else if (n =? 98)%N then Some "008"%char
  else if (n =? 102)%N then Some "012"%char
  else if (n =? 110)%N then Some "010"%char
  else if (n =? 114)%N then Some "013"%char
  else if (n =? 116)%N then Some "009"%char
  else None.

Definition prepend (prefix : string) (p : res (string * string)) : res (string * string) :=
  let* r := p in Ok (prefix +:+ fst r, snd r).

(** The decoder's string scanner, entered after the opening quote: the
    decoded string and the text after the closing quote.  A surrogate
    escape without its partner decodes to a string that is no Unicode
    text; the embedding stops there with [NotModelled]. *)
Fixpoint scanstring (s : string) : res (string * string) :=
  match s with
  | EmptyString => Raise JSONDecodeError
  | String c s' =>
      if Ascii.eqb c quote then Ok (EmptyString, s')
      else if Ascii.eqb c backslash then
        match s' with
        | EmptyString => Raise JSONDecodeError
        | String e s'' =>
            if Ascii.eqb e "u" then
              match s'' with
              | String h1 (String h2 (String h3 (String h4 r))) =>
                  match code_unit h1 h2 h3 h4 with
                  | None => Raise JSONDecodeError
                  | Some u =>
                      if is_high_surrogate u then
                        match r with
                        | String b (String u' (String l1 (String l2 (String l3 (String l4 r'))))) =>
                            match code_unit l1 l2 l3 l4 with
                            | Some lo =>
                                if Ascii.eqb b backslash && Ascii.eqb u' "u"
                                   && is_low_surrogate lo
                                then prepend
                                       (utf8 (65536 + (u - 55296) * 1024 + (lo - 56320)))
                                       (scanstring r')
                                else Raise NotModelled
                            | None => Raise NotModelled
                            end
                        | _ => Raise NotModelled
                        end
                      else if is_low_surrogate u then Raise NotModelled
                      else prepend (utf8 u) (scanstring r)
                  end
              | _ => Raise JSONDecodeError
              end
            else
              match unescape e with
              | Some ch => prepend (String ch EmptyString) (scanstring s'')
              | None => Raise JSONDecodeError
              end
        end
      else if (N_of_ascii c <? 32)%N then Raise JSONDecodeError
      else prepend (String c EmptyString) (scanstring s')
  end.

(** The members of an object, entered after the opening quote of a key.
    Only string values are decoded (the store holds nothing else); any
    other JSON value stops the embedding with [NotModelled]. *)
Fixpoint parse_members (fuel : nat) (s : string) : res (dict * string) :=
  match fuel with
  | O => Raise NotModelled
  | S fuel' =>
      let* k := scanstring s in
      match skip_space (snd k) with
      | String ":" s1 =>
          match skip_space s1 with
          | EmptyString => Raise JSONDecodeError
          | String q s2 =>
              if Ascii.eqb q quote then
                let* v := scanstring s2 in
                match skip_space (snd v) with
                | String "}" s3 => Ok ([(fst k, fst v)], s3)
                | String "," s3 =>
                    match skip_space s3 with
                    | String q' s4 =>
                        if Ascii.eqb q' quote then
                          let* rest := parse_members fuel' s4 in
                          Ok ((fst k, fst v) :: fst rest, snd rest)
                        else Raise JSONDecodeError
                    | EmptyString => Raise JSONDecodeError
                    end
                | _ => Raise JSONDecodeError
                end
              else Raise NotModelled
          end
      | _ => Raise JSONDecodeError
      end
  end.

(** [d[k] = v] *)
Fixpoint dict_set (d : dict) (k v : string) : dict :=
  match d with
  | [] => [(k, v)]
  | (k', v') :: d' =>
      if String.eqb k' k then (k', v) :: d' else (k', v') :: dict_set d' k v
  end.

(** [dict(pairs)]: a repeated key keeps its first place and its last
    value. *)
Definition dict_of_pairs (pairs : list (string * string)) : dict :=
  fold_left (fun d kv => dict_set d (fst kv) (snd kv)) pairs [].

Definition json_loads (text : string) : res dict :=
  match skip_space text with
  | EmptyString => Raise JSONDecodeError
  | String "{" s1 =>
      match skip_space s1 with
      | String "}" s2 =>
          if is_empty (skip_space s2) then Ok [] else Raise JSONDecodeError
      | String q s2 =>
          if Ascii.eqb q quote then
            let* r := parse_members (String.length text) s2 in
            if is_empty (skip_space (snd r)) then Ok (dict_of_pairs (fst r))
            else Raise JSONDecodeError
          else Raise JSONDecodeError
      | EmptyString => Raise JSONDecodeError
      end
  | String _ _ => Raise NotModelled
  end.

(** *** The store: one file of the working directory *)

Definition categories_file : string := "categories.json".

(** [os.path.exists] answers from the file system, here a map from path
    to file content. *)
Definition load_categories (fs : gmap string string) : res dict :=
  match fs !! categories_file with
  | Some text => json_loads text
  | None => Ok []
  end.

Definition save_categories (categories : dict) (fs : gmap string string)
    : gmap string string :=
  <[categories_file := json_dumps categories]> fs.

End CategoryStore.

(* ================================================================== *)
(** ** pages/1_Statistics.py: the check of the uploaded file *)
(* ================================================================== *)

Module StatisticsPage.

Definition required_columns : list string :=
  ["ID"; "Asin"; "Title"; "Content"; "Model"; "Rating"; "Date"; "Review Type"].

Definition rejection_message : string :=
  "❌ 请上传预处理后的文件！预处理后的文件应包含以下列：" +:+ join ", " required_columns.

(** [None]: the file is accepted and the analysis runs; [Some m]: the page
    shows [m] and returns. *)
Definition validate (df : DataFrame) : option string :=
  if forallb (has_column df) required_columns then None
  else Some rejection_message.

End StatisticsPage.
From Stdlib Require Import Sorted.

(* ================================================================== *)
(** ** utils.py: pie chart data and the text export *)
(* ================================================================== *)

Module Reports.
Import Utils.

(** [s.reindex(labels, fill_value=0)] on a series of counts: pandas
    refuses an index with a repeated label. *)
Fixpoint lookup_count (label : value) (counts : list (value * Z)) : Z :=
  match counts with
  | [] => 0%Z
  | (k, c) :: counts' => if same_key k label then c else lookup_count label counts'
  end.

Fixpoint has_repeated_label (counts : list (value * Z)) : bool :=
  match counts with
  | [] => false
  | (k, _) :: counts' =>
      existsb (fun kc => same_key k (fst kc)) counts' || has_repeated_label counts'
  end.

(** Whether a list of keys names one group twice. *)
Fixpoint repeated_key (l : Series) : bool :=
  match l with
  | [] => false
  | k :: l' => existsb (same_key k) l' || repeated_key l'
  end.

Definition pie_labels : list string := ["positive"; "neutral"; "negative"].

(** The function returns the pie chart of a two-column frame (type,
    count); the embedding returns that frame. *)
Definition create_pie_chart (review_counts : list (value * Z))
    : res (list (string * Z)) :=
  if has_repeated_label review_counts then Raise ValueError
  else Ok (map (fun label => (label, lookup_count (VStr label) review_counts))
             pie_labels).

(** [df.iterrows()]: the cells of row [i], one per column. *)
Definition row_at (df : DataFrame) (i : nat) : list value :=
  map (fun col => nth i (snd col) VNaN) df.

Definition iterrows (df : DataFrame) : list (list value) :=
  map (row_at df) (seq 0 (len df)).

Definition tab : ascii := "009"%char.
Definition line_feed : ascii := "010"%char.

(** ['-' * n] *)
Fixpoint dashes (n : nat) : string :=
  match n with
  | O => EmptyString
  | S n' => String "-" (dashes n')
  end.

(** A text in which the character [c] does not occur. *)
Fixpoint free_of (c : ascii) (s : string) : bool :=
  match s with
  | EmptyString => true
  | String a s' => negb (Ascii.eqb a c) && free_of c s'
  end.

(** A field that can stand in a line of the text export. *)
Definition plain_field (s : string) : bool :=
  free_of tab s && free_of line_feed s.

Section Download.

(** [str(x)] of a cell that is not a string, and the bytes of the Excel
    workbook pandas writes: both taken as given. *)
Variable str_of_scalar : value -> string.
Variable to_excel : DataFrame -> string.

(** [str(val) if pd.notna(val) else ''] *)
Definition render_cell (val : value) : string :=
  if notna val then
    match val with
    | VStr s => s
    | _ => str_of_scalar val
    end
  else EmptyString.

Definition text_line (fields : list string) : string :=
  join (String tab EmptyString) fields +:+ String line_feed EmptyString.

Fixpoint concat_lines (lines : list string) : string :=
  match lines with
  | [] => EmptyString
  | l :: lines' => l +:+ concat_lines lines'
  end.

Definition get_download_data (df : DataFrame) (file_format : string) : string :=
  if String.eqb file_format "excel" then to_excel df
  else
    text_line (columns df)
    +:+ (dashes 100 +:+ String line_feed EmptyString)
    +:+ concat_lines (map (fun row => text_line (map render_cell row)) (iterrows df)).

End Download.

End Reports.

(* ================================================================== *)
(** ** pages/1_Statistics.py: the overall trend *)
(* ================================================================== *)

Module OverallTrend.
Import Utils.

(** The cells [mean] accepts: numbers, booleans and missing cells. *)
Definition numeric_cell (v : value) : bool :=
  match v with
  | VStr _ | VDate _ _ _ => false
  | _ => true
  end.

Fixpoint mean_months (months rating : Series) (keys : list value)
    : res (list (value * pyfloat)) :=
  match keys with
  | [] => Ok []
  | m :: keys' =>
      let* xs := numbers (rows_of months m rating) in
      let* rest := mean_months months rating keys' in
      Ok ((m, mean_of xs) :: rest)
  end.

(** [df.groupby('Month')['Rating'].mean().reset_index()] *)
Definition overall_trend_data (df : DataFrame) : res (list (value * pyfloat)) :=
  let* months := getitem df "Month" in
  let* rating := getitem df "Rating" in
  mean_months months rating (sort_uniq value_compare (List.filter notna months)).

(** As for [create_rating_trend_chart], the embedding returns the data of
    the chart, and the caller's table is in the store. *)
Definition create_overall_trend_chart (df : positive) (h : gmap positive DataFrame)
    : res (list (value * pyfloat)) * gmap positive DataFrame :=
  match h !! df with
  | None => (Raise NotModelled, h)
  | Some table =>
      match month_column table with
      | Raise e => (Raise e, h)
      | Ok months =>
          let table := setitem table "Month" months in
          (overall_trend_data table, <[df := table]> h)
      end
  end.

End OverallTrend.

(* ================================================================== *)
(** ** pages/3_Keyword_Match.py: the category editor of [main] *)
(* ================================================================== *)

Module CategoryPage.
Import CategoryStore.

Definition PRESET_CATEGORIES : dict :=
  [("儿童或青少年",
    "kids,girl,girls,boy,boys,children,teen,picky eater,child-friendly,baby,sugar coating,candy-like,my daughter,my son");
   ("孕妇或哺乳期女性",
    "pregnant,pregnancy,nursing,breastfeeding,menstrual,period,hormonal support,prenatal,postpartum,label says do not use during pregnancy");
   ("素食者或健康饮食者",
    "vegan,vegetarian,plant-based,no artificial,no gluten,no high fructose corn syrup,organic,non-GMO,natural ingredients,sugar-free,low sugar,stevia");
   ("健身运动人群",
    "fitness,exercise,training,athlete,workout,gym,sports,muscle,strength,endurance,protein,Boosts endurance,Boosts strength")].

(** [k in d] *)
Definition dict_contains (d : dict) (k : string) : bool :=
  existsb (fun kv => String.eqb (fst kv) k) d.

(** [d[k]] *)
Fixpoint dict_get (d : dict) (k : string) : res string :=
  match d with
  | [] => Raise (KeyError k)
  | (k', v) :: d' => if String.eqb k' k then Ok v else dict_get d' k
  end.

(** [del d[k]] *)
Fixpoint dict_del (d : dict) (k : string) : res dict :=
  match d with
  | [] => Raise (KeyError k)
  | (k', v) :: d' =>
      if String.eqb k' k then Ok d'
      else let* rest := dict_del d' k in Ok ((k', v) :: rest)
  end.

(** What a click leaves behind: the page's mapping and the files. *)
Definition state : Type := (dict * gmap string string)%type.

(** The import button of a preset. *)
Definition import_preset (preset_name preset_keywords : string) (st : state) : state :=
  let categories := dict_set (fst st) preset_name preset_keywords in
  (categories, save_categories categories (snd st)).

(** The add button, with the text of the name field: nothing happens on
    an empty name, and a name already present is refused with a
    warning. *)
Definition add_category (new_category : string) (st : state) : state :=
  if is_empty new_category then st
  else if dict_contains (fst st) new_category then st
  else
    let categories := dict_set (fst st) new_category EmptyString in
    (categories, save_categories categories (snd st)).

(** The delete button of a listed category. *)
Definition delete_category (category : string) (st : state) : res state :=
  let* categories := dict_del (fst st) category in
  Ok (categories, save_categories categories (snd st)).

(** The page and the file agree: the names of the mapping are distinct
    and the file, read again, gives the mapping. *)
Definition in_sync (st : state) : Prop :=
  List.NoDup (map fst (fst st)) /\ load_categories (snd st) = Ok (fst st).

(** The number of keywords shown beside a category. *)
Definition keyword_count (keywords : string) : nat :=
  if is_empty keywords then 0%nat
  else List.length (List.filter (fun k => negb (is_empty (strip k))) (split "," keywords)).

End CategoryPage.

(* ================================================================== *)
(** ** The classification engine, column by column *)
(* ================================================================== *)

Module EngineSpec.
Import KeywordMatch.

Section WithStr.

Variable str_of_scalar : value -> string.

(** The boolean column of a category over the column [content]. *)
Definition category_column (content : Series) (cr : string * string)
    : string * Series :=
  (column_name (fst cr),
   map (fun x => VBool (match_keywords str_of_scalar x
                          (map strip (split "," (snd cr))))) content).

(** The statistics of one category from its column. *)
Definition category_stat (content : Series) (nrows : nat) (cr : string * string)
    : string * stat :=
  let matched := sum_true (snd (category_column content cr)) in
  (fst cr,
   {| matched := matched;
      percentage := round2 (inject_Z matched / inject_Z (Z.of_nat nrows) * 100) |}).

End WithStr.

End EngineSpec.

(* ================================================================== *)
(** ** Sample tables *)
(* ================================================================== *)

Module Examples.

(** One review, for the classification engine. *)
Definition one_review : DataFrame :=
  [("ID", [VNum 1]);
   ("Content", [VStr "great gift for my dog"]);
   ("Review Type", [VStr "positive"])].


(** A raw row whose rating cell holds the text [raw]. *)
Definition raw_review (raw : string) : DataFrame :=
  [("Asin", [VStr "A1"]);
   ("Title", [VStr "Nice"]);
   ("Content", [VStr "great gift for my dog"]);
   ("Model", [VStr "M1"]);
   ("Rating", [VStr raw]);
   ("Date", [VDate 2024 1 5])].

(** A raw table that lacks both [Asin] and [Title]. *)
Definition two_columns_short : DataFrame :=
  [("Content", [VStr "great gift for my dog"]);
   ("Model", [VStr "M1"]);
   ("Rating", [VNum 5]);
   ("Date", [VDate 2024 1 5])].

(** Three reviews of product A1: two of model M1 rated 4 and 5, one of
    model M2 rated 2. *)
Definition three_reviews : DataFrame :=
  [("ID", [VNum 1; VNum 2; VNum 3]);
   ("Asin", [VStr "A1"; VStr "A1"; VStr "A1"]);
   ("Title", [VStr "t1"; VStr "t2"; VStr "t3"]);
   ("Content", [VStr "c1"; VStr "c2"; VStr "c3"]);
   ("Model", [VStr "M1"; VStr "M1"; VStr "M2"]);
   ("Rating", [VNum 4; VNum 5; VNum 2]);
   ("Date", [VDate 2024 1 5; VDate 2024 1 20; VDate 2024 2 7]);
   ("Review Type", [VStr "positive"; VStr "positive"; VStr "negative"])].

Definition three_reviews_grouped : DataFrame :=
  three_reviews ++ [("Group", [VStr "A1 - M1"; VStr "A1 - M1"; VStr "A1 - M2"])].




(** The caller's store with one table, under the reference 1. *)
Definition one_table (table : DataFrame) : gmap positive DataFrame :=
  {[1%positive := table]}.

(** The three reviews, in a file that already has a column [Group]. *)
Definition grouped_by_hand : DataFrame :=
  three_reviews ++ [("Group", [VStr "north"; VStr "south"; VStr "south"])].


(** A store with a preset of the page, a category without keywords, and
    a name and keywords outside ASCII. *)
Definition sample_categories : list (string * string) :=
  [("儿童或青少年", "kids,girl,girls,boy,boys");
   ("Sin palabras", "");
   ("Niños", "niño,niña,bebé")].

(** Stand-ins for the scalar conversions, where a closed statement needs
    some: a reader that recognises nothing, and [str] giving the empty
    string. *)
Definition no_float : string -> option pyfloat := fun _ => None.
Definition no_number : string -> option Q := fun _ => None.
Definition no_datetime : value -> option (Z * Z * Z) := fun _ => None.
Definition no_str : value -> string := fun _ => EmptyString.

End Examples.

(* ================================================================== *)
(** ** Further sample tables *)
(* ================================================================== *)

Module Samples.

(** A raw upload of three rows: one rating given as text, one date given
    as text, a missing cell in each text column, and a column the
    processing does not ask for. *)
Definition raw_upload : DataFrame :=
  [("Asin", [VStr "A1"; VStr "A1"; VStr "B2"]);
   ("Seller", [VStr "s1"; VStr "s2"; VStr "s3"]);
   ("Title", [VStr " Nice "; VNaN; VStr "Bad"]);
   ("Content", [VStr "great gift for my girl"; VStr "ok"; VNaN]);
   ("Model", [VStr "M1"; VNaN; VStr "M2 "]);
   ("Rating", [VNum 5; VStr "abc"; VNum 3]);
   ("Date", [VDate 2024 1 5; VStr "soon"; VNaN])].

(** Two processed reviews, the second without content. *)
Definition two_reviews : DataFrame :=
  [("ID", [VNum 1; VNum 2]);
   ("Content", [VStr "great gift for my girl, she takes it to the gym"; VNaN]);
   ("Review Type", [VStr "positive"; VStr "negative"])].

Definition two_categories : list (string * string) :=
  [("Kids", "kids,girl"); ("Fitness", "gym, workout")].

(** Three rows: a positive one, one of type unknown, one without a
    type. *)
Definition odd_types : DataFrame :=
  [("ID", [VNum 1; VNum 2; VNum 3]);
   ("Review Type", [VStr "positive"; VStr "unknown"; VNaN])].

(** The dates of the three reviews of the scenario. *)
Definition three_dates : Series :=
  [VDate 2024 1 5; VDate 2024 1 20; VDate 2024 2 7].

(** What the processing makes of [raw_upload] when no text can be read
    as a number or as a date. *)
Definition processed_upload : DataFrame :=
  [("ID", [VNum 1; VNum 2; VNum 3]);
   ("Asin", [VStr "A1"; VStr "A1"; VStr "B2"]);
   ("Title", [VStr "Nice"; VStr "nan"; VStr "Bad"]);
   ("Content", [VStr "great gift for my girl"; VStr "ok"; VStr "nan"]);
   ("Model", [VStr "M1"; VStr "nan"; VStr "M2"]);
   ("Rating", [VNum 5; VNaN; VNum 3]);
   ("Date", [VDate 2024 1 5; VNaN; VNaN]);
   ("Review Type", [VStr "positive"; VStr "negative"; VStr "neutral"])].

End Samples.

(* ================================================================== *)
(** ** Facts about rounding *)
(* ================================================================== *)

Module NumFacts.
Import Utils.

Lemma div100 (x : Q) : (x / 100 == x * (1 # 100))%Q.
Proof. reflexivity. Qed.

(** The rounded integer is within one half of the number. *)
Lemma round_half_even_close (x : Q) :
  (x - (1 # 2) <= inject_Z (round_half_even x)
   /\ inject_Z (round_half_even x) <= x + (1 # 2))%Q.
Proof.
  unfold round_half_even.
  pose proof (Qfloor_le x) as Hlo. pose proof (Qlt_floor x) as Hhi.
  rewrite inject_Z_plus in Hhi. change (inject_Z 1) with 1%Q in Hhi.
  destruct (Qcompare_spec (x - inject_Z (Qfloor x)) (1 # 2)) as [H | H | H].
  - destruct (Z.even (Qfloor x)).
    + split; lra.
    + rewrite inject_Z_plus. change (inject_Z 1) with 1%Q. split; lra.
  - split; lra.
  - rewrite inject_Z_plus. change (inject_Z 1) with 1%Q. split; lra.
Qed.

(** [round(x, 2)] is a number of hundredths within half a hundredth of
    [x]. *)
Lemma round2_close (x : Q) :
  (x - (1 # 200) <= round2 x /\ round2 x <= x + (1 # 200))%Q
  /\ exists z : Z, (round2 x == inject_Z z / 100)%Q.
Proof.
  unfold round2. split.
  - rewrite Qred_correct, div100.
    destruct (round_half_even_close (x * 100)) as [Hlo Hhi]. split; lra.
  - exists (round_half_even (x * 100)). apply Qred_correct.
Qed.

(** The rounded square root [r] of a number [v] that is not negative:
    [v] lies between the squares of [r - 0.005] and [r + 0.005]. *)
Lemma sqrt_round2_close (v : Q) :
  (0 <= v)%Q ->
  (0 <= sqrt_round2 v)%Q
  /\ (v <= (sqrt_round2 v + (1 # 200)) * (sqrt_round2 v + (1 # 200)))%Q
  /\ ((sqrt_round2 v == 0)%Q
      \/ ((sqrt_round2 v - (1 # 200)) * (sqrt_round2 v - (1 # 200)) <= v)%Q).
Proof.
  intros Hv. unfold sqrt_round2.
  set (n := Qfloor (v * 10000)). set (f := Z.sqrt n).
  assert (Hn0 : (0 <= n)%Z).
  { unfold n. change 0%Z with (Qfloor 0). apply Qfloor_resp_le. lra. }
  pose proof (Z.sqrt_spec n Hn0) as Hsq. cbv zeta in Hsq. fold f in Hsq.
  pose proof (Z.sqrt_nonneg n) as Hf0. fold f in Hf0.
  pose proof (Qfloor_le (v * 10000)) as Hlo. fold n in Hlo.
  pose proof (Qlt_floor (v * 10000)) as Hhi. fold n in Hhi.
  assert (Hlow : (inject_Z (f * f) <= v * 10000)%Q).
  { apply Qle_trans with (inject_Z n); [|exact Hlo]. rewrite <- Zle_Qle. lia. }
  assert (Hupp : (v * 10000 < inject_Z ((f + 1) * (f + 1)))%Q).
  { apply Qlt_le_trans with (inject_Z (n + 1)); [exact Hhi|].
    rewrite <- Zle_Qle. lia. }
  rewrite inject_Z_mult in Hlow, Hupp. rewrite inject_Z_plus in Hupp.
  change (inject_Z 1) with 1%Q in Hupp.
  assert (HfQ : (0 <= inject_Z f)%Q) by (change 0%Q with (inject_Z 0); rewrite <- Zle_Qle; exact Hf0).
  set (F := inject_Z f) in *.
  assert (Hcase :
    forall k : Z,
      (k = f /\ (v * 40000 <= (2 * F + 1) * (2 * F + 1))%Q)
      \/ (k = (f + 1)%Z /\ ((2 * F + 1) * (2 * F + 1) <= v * 40000)%Q) ->
      (0 <= Qred (inject_Z k / 100))%Q
      /\ (v <= (Qred (inject_Z k / 100) + (1 # 200))
               * (Qred (inject_Z k / 100) + (1 # 200)))%Q
      /\ ((Qred (inject_Z k / 100) == 0)%Q
          \/ ((Qred (inject_Z k / 100) - (1 # 200))
              * (Qred (inject_Z k / 100) - (1 # 200)) <= v)%Q)).
  { intros k Hk. rewrite !Qred_correct, !div100.
    destruct Hk as [[-> Hle] | [-> Hge]].
    - fold F. split; [nra|]. split; [nra|].
      destruct (Z.eq_dec f 0%Z) as [E | E].
      + left. unfold F. rewrite E. reflexivity.
      + right. assert (1 <= F)%Q.
        { unfold F. change 1%Q with (inject_Z 1). rewrite <- Zle_Qle. lia. }
        nra.
    - rewrite inject_Z_plus. change (inject_Z 1) with 1%Q. fold F.
      split; [nra|]. split; [nra|]. right. nra. }
  rewrite inject_Z_mult, inject_Z_plus, inject_Z_mult.
  change (inject_Z 2) with 2%Q. change (inject_Z 1) with 1%Q. fold F.
  destruct (Qcompare_spec (v * 40000) ((2 * F + 1) * (2 * F + 1))) as [H | H | H].
  - destruct (Z.even f); apply Hcase; [left | right]; split; try reflexivity; lra.
  - apply Hcase. left. split; [reflexivity | lra].
  - apply Hcase. right. split; [reflexivity | lra].
Qed.

End NumFacts.

(* ================================================================== *)
(** ** Facts about the string methods *)
(* ================================================================== *)

Module PyFacts.








Lemma contains_empty (s : string) : contains s EmptyString = true.
Proof. destruct s; reflexivity. Qed.

End PyFacts.

Module KeywordMatchFacts.
Import KeywordMatch PyFacts.



End KeywordMatchFacts.

(* ================================================================== *)
(** ** Facts about tables *)
(* ================================================================== *)

Module FrameFacts.

Lemma getitem_setitem_eq (df : DataFrame) (col : string) (s : Series) :
  getitem (setitem df col s) col = Ok s.
Proof.
  induction df as [|[name s0] df IH]; simpl.
  - rewrite String.eqb_refl. reflexivity.
  - destruct (String.eqb name col) eqn:E; simpl; rewrite E; [reflexivity | exact IH].
Qed.

Lemma getitem_setitem_ne (df : DataFrame) (col col' : string) (s : Series) :
  col <> col' -> getitem (setitem df col s) col' = getitem df col'.
Proof.
  intros Hne. induction df as [|[name s0] df IH]; simpl.
  - destruct (String.eqb col col') eqn:E; [|reflexivity].
    apply String.eqb_eq in E. contradiction.
  - destruct (String.eqb name col) eqn:E; simpl.
    + apply String.eqb_eq in E. subst name.
      destruct (String.eqb col col') eqn:E'; [|reflexivity].
      apply String.eqb_eq in E'. contradiction.
    + rewrite IH. reflexivity.
Qed.


Lemma has_column_getitem (df : DataFrame) (col : string) :
  has_column df col = true <-> exists s, getitem df col = Ok s.
Proof.
  unfold has_column, columns. induction df as [|[name s0] df IH]; simpl.
  - split; [discriminate | intros [s H]; discriminate].
  - rewrite (String.eqb_sym col name). destruct (String.eqb name col); simpl.
    + split; [intros _; exists s0; reflexivity | reflexivity].
    + exact IH.
Qed.

(** The columns after an assignment: the same names, and the new name at
    the end when the table did not have it. *)
Lemma columns_setitem (df : DataFrame) (col : string) (s : Series) :
  columns (setitem df col s)
  = if has_column df col then columns df else columns df ++ [col].
Proof.
  unfold has_column, columns. induction df as [|[name s0] df IH]; simpl.
  - reflexivity.
  - rewrite (String.eqb_sym col name). destruct (String.eqb name col); simpl.
    + reflexivity.
    + rewrite IH. destruct (existsb (String.eqb col) (map fst df)); reflexivity.
Qed.

End FrameFacts.

(* ================================================================== *)
(** ** The classification engine *)
(* ================================================================== *)

Module ClassificationFacts.
Import KeywordMatch PyFacts FrameFacts.

Lemma lstrip_empty_spaces (s : string) :
  lstrip s = EmptyString -> forallb is_space (list_ascii_of_string s) = true.
Proof.
  induction s as [|c s IH]; simpl; [reflexivity|].
  destruct (is_space c); [exact IH | discriminate].
Qed.

Lemma lstrip_head (s : string) :
  match lstrip s with
  | EmptyString => True
  | String c _ => is_space c = false
  end.
Proof.
  induction s as [|c s IH]; simpl; [exact I|].
  destruct (is_space c) eqn:E; [exact IH | exact E].
Qed.

Lemma strip_empty_spaces (s : string) :
  strip s = EmptyString -> forallb is_space (list_ascii_of_string s) = true.
Proof.
  unfold strip. intros H. apply lstrip_empty_spaces.
  pose proof (lstrip_head s) as Hh.
  destruct (lstrip s) as [|c t]; [reflexivity|].
  simpl in H. rewrite Hh in H. simpl in H. discriminate.
Qed.

Lemma split_spaces (s : string) :
  forallb is_space (list_ascii_of_string s) = true -> split "," s = [s].
Proof.
  induction s as [|c s IH]; simpl; [reflexivity|].
  intros H. apply andb_true_iff in H as [Hc Hs].
  destruct (Ascii.eqb c ",") eqn:E.
  - apply Ascii.eqb_eq in E. subst c. discriminate.
  - rewrite (IH Hs). reflexivity.
Qed.

(** A keyword string that is empty or blank is parsed by the engine to the
    one keyword [""], which every present text contains. *)
Lemma blank_keywords_match_every_text (str_of_scalar : value -> string)
    (raw : string) (text : value) :
  strip raw = EmptyString -> isna text = false ->
  match_keywords str_of_scalar text (map strip (split "," raw)) = true.
Proof.
  intros Hraw Htext. unfold match_keywords. rewrite Htext.
  rewrite (split_spaces raw (strip_empty_spaces raw Hraw)). simpl.
  rewrite Hraw. simpl. rewrite contains_empty. reflexivity.
Qed.


(** C2 (the code departs from it).  A one-row table and a category whose
    keyword string is empty, or blank: the engine marks the row as
    matched and counts 1 match at 100%, where the claim has an all-false
    column and a count of 0.  The category editor, on the same strings,
    discards the empty piece. *)
Theorem analyze_reviews_blank_keywords :
  forall str_of_scalar : value -> string,
    analyze_reviews str_of_scalar Examples.one_review [("Kids", "")]
    = Ok ([("ID", [VNum 1]);
           ("Content", [VStr "great gift for my dog"]);
           ("Original Review Type", [VStr "positive"]);
           ("Is Kids", [VBool true])],
          [("Kids", {| matched := 1; percentage := 100 |})])
    /\ analyze_reviews str_of_scalar Examples.one_review [("Kids", "   ")]
       = Ok ([("ID", [VNum 1]);
              ("Content", [VStr "great gift for my dog"]);
              ("Original Review Type", [VStr "positive"]);
              ("Is Kids", [VBool true])],
             [("Kids", {| matched := 1; percentage := 100 |})])
    /\ editor_keyword_list "" = []
    /\ editor_keyword_list "   " = [].
Proof.
  intros str_of_scalar. repeat split; reflexivity.
Qed.



End ClassificationFacts.

(* ================================================================== *)
(** ** process_data: schema check and review types *)
(* ================================================================== *)

Module ProcessDataFacts.
Import Utils FrameFacts PyFacts.

Section Classifier.

Variable parse_float : string -> option pyfloat.

(** The classifier never raises, and its answer is fixed by what
    [float()] makes of the rating: it is [unknown] exactly when [float()]
    raises; a number is [positive] from 4 up, [neutral] at 3, and
    [negative] below 3 and strictly between 3 and 4; [nan] is
    [negative]. *)
Lemma get_review_type_cases (rating : pyobj) :
  (exists label, get_review_type parse_float rating = Ok label)
  /\ (raises (py_float parse_float rating) ->
      get_review_type parse_float rating = Ok "unknown")
  /\ (forall q, py_float parse_float rating = Ok (FFin q) ->
      ((4 <= q)%Q -> get_review_type parse_float rating = Ok "positive")
      /\ ((q == 3)%Q -> get_review_type parse_float rating = Ok "neutral")
      /\ ((q < 4)%Q -> ~ (q == 3)%Q ->
          get_review_type parse_float rating = Ok "negative"))
  /\ (py_float parse_float rating = Ok FNaN ->
      get_review_type parse_float rating = Ok "negative").
Proof.
  unfold get_review_type. split; [|split; [|split]].
  - destruct (py_float parse_float rating) as [f|e]; simpl.
    + destruct (float_ge f (FFin 4)); [eexists; reflexivity|].
      destruct (float_eq f (FFin 3)); eexists; reflexivity.
    + eexists; reflexivity.
  - intros [e ->]. reflexivity.
  - intros q ->. simpl. split; [|split].
    + intros H. apply Qle_bool_iff in H. rewrite H. reflexivity.
    + intros H. destruct (Qle_bool 4 q) eqn:E.
      * apply Qle_bool_iff in E. rewrite H in E.
        exfalso. apply (Qle_not_lt _ _ E). reflexivity.
      * apply Qeq_bool_iff in H. rewrite H. reflexivity.
    + intros Hlt Hne. destruct (Qle_bool 4 q) eqn:E.
      * apply Qle_bool_iff in E. exfalso. apply (Qlt_not_le _ _ Hlt E).
      * destruct (Qeq_bool q 3) eqn:E'; [|reflexivity].
        apply Qeq_bool_iff in E'. contradiction.
  - intros ->. reflexivity.
Qed.

Lemma apply_review_type_ok (s : Series) :
  exists types, apply_review_type parse_float s = Ok types
                /\ List.length types = List.length s.
Proof.
  induction s as [|v s [types [IH Hlen]]]; simpl.
  - exists []. split; reflexivity.
  - destruct (get_review_type_cases (pyobj_of_value v)) as [[label ->] _].
    simpl. rewrite IH. simpl. exists (VStr label :: types).
    split; [reflexivity | simpl; rewrite Hlen; reflexivity].
Qed.

End Classifier.

(** C1 (the code departs from it).  A rating cell that holds a text
    pandas cannot read as a number is coerced to [nan] before the
    classifier sees it; [float(nan)] does not raise, both comparisons
    are false, and the row is labelled [negative], where the claim has
    [unknown] for a rating that is not convertible to a number. *)
Theorem unparseable_rating_is_negative :
  forall (parse_float : string -> option pyfloat)
         (parse_number : string -> option Q)
         (parse_datetime : value -> option (Z * Z * Z))
         (str_of_scalar : value -> string) (raw : string),
    parse_number raw = None ->
    get_review_type parse_float (PFloat FNaN) = Ok "negative"
    /\ process_data parse_float parse_number parse_datetime str_of_scalar
         (Examples.raw_review raw)
       = Ok (Processed
               [("ID", [VNum 1]);
                ("Asin", [VStr "A1"]);
                ("Title", [VStr "Nice"]);
                ("Content", [VStr "great gift for my dog"]);
                ("Model", [VStr "M1"]);
                ("Rating", [VNaN]);
                ("Date", [VDate 2024 1 5]);
                ("Review Type", [VStr "negative"])]).
Proof.
  intros parse_float parse_number parse_datetime str_of_scalar raw Hraw.
  split; [reflexivity|].
  unfold process_data, Examples.raw_review. cbn. rewrite Hraw. reflexivity.
Qed.

(** The rating text [abc], with a reader that recognises no number in it. *)
Lemma unparseable_rating_is_negative_witness :
  get_review_type Examples.no_float (PFloat FNaN) = Ok "negative"
  /\ process_data Examples.no_float Examples.no_number Examples.no_datetime
       Examples.no_str (Examples.raw_review "abc")
     = Ok (Processed
             [("ID", [VNum 1]);
              ("Asin", [VStr "A1"]);
              ("Title", [VStr "Nice"]);
              ("Content", [VStr "great gift for my dog"]);
              ("Model", [VStr "M1"]);
              ("Rating", [VNaN]);
              ("Date", [VDate 2024 1 5]);
              ("Review Type", [VStr "negative"])]).
Proof.
  apply (unparseable_rating_is_negative Examples.no_float Examples.no_number
           Examples.no_datetime Examples.no_str "abc").
  reflexivity.
Defined.

Section Schema.

Variable parse_float : string -> option pyfloat.
Variable parse_number : string -> option Q.
Variable parse_datetime : value -> option (Z * Z * Z).
Variable str_of_scalar : value -> string.

(** The loop stops at the first required column the table lacks. *)
Lemma first_missing_some (df : DataFrame) (cols : list string) (col : string) :
  first_missing df cols = Some col ->
  has_column df col = false
  /\ exists before after, cols = before ++ col :: after
       /\ forall c, In c before -> has_column df c = true.
Proof.
  induction cols as [|c cols IH]; simpl; [discriminate|].
  destruct (has_column df c) eqn:E.
  - intros H. destruct (IH H) as [Hcol [before [after [-> Hb]]]].
    split; [exact Hcol|]. exists (c :: before), after. split; [reflexivity|].
    intros c' [<- | Hin]; [exact E | apply Hb; exact Hin].
  - intros [= <-]. split; [exact E|]. exists [], cols. split; [reflexivity|].
    intros c' [].
Qed.

Lemma first_missing_none (df : DataFrame) (cols : list string) :
  first_missing df cols = None <-> forall c, In c cols -> has_column df c = true.
Proof.
  induction cols as [|c cols IH]; simpl.
  - split; [intros _ c [] | reflexivity].
  - destruct (has_column df c) eqn:E.
    + rewrite IH. split.
      * intros H c' [<- | Hin]; [exact E | apply H; exact Hin].
      * intros H c' Hin. apply H. right. exact Hin.
    + split; [discriminate|]. intros H. specialize (H c (or_introl eq_refl)).
      rewrite E in H. discriminate.
Qed.

Lemma forallb_has_column (df : DataFrame) (cols : list string) :
  forallb (has_column df) cols = true <-> forall c, In c cols -> has_column df c = true.
Proof. apply forallb_forall. Qed.

Lemma process_data_accepts (df : DataFrame) :
  (forall c, In c required_columns -> has_column df c = true) ->
  exists df', process_data parse_float parse_number parse_datetime str_of_scalar df
              = Ok (Processed df')
              /\ columns df' = column_order.
Proof.
  intros Hall. unfold process_data.
  rewrite (proj2 (first_missing_none df required_columns) Hall).
  assert (Hget : forall c, In c required_columns -> exists s, getitem df c = Ok s).
  { intros c Hin. apply has_column_getitem. apply Hall. exact Hin. }
  destruct (Hget "Asin") as [s1 H1]; [simpl; tauto|].
  destruct (Hget "Title") as [s2 H2]; [simpl; tauto|].
  destruct (Hget "Content") as [s3 H3]; [simpl; tauto|].
  destruct (Hget "Model") as [s4 H4]; [simpl; tauto|].
  destruct (Hget "Rating") as [s5 H5]; [simpl; tauto|].
  destruct (Hget "Date") as [s6 H6]; [simpl; tauto|].
  unfold required_columns, select. rewrite H1, H2, H3, H4, H5, H6.
  cbn -[apply_review_type id_column].
  destruct (apply_review_type_ok parse_float (map (to_numeric_coerce parse_number) s5))
    as [types [Ht _]].
  rewrite Ht. cbn -[id_column]. eexists. split; reflexivity.
Qed.

(** C4, as the code has it.  [process_data] rejects a table that lacks a
    required column before anything is computed, and its message names
    the first missing column of the list [Asin, Title, Content, Model,
    Rating, Date], and that one only; the statistics page rejects such a
    table with one fixed message that lists all eight required columns.
    A table with every required column, whatever else it holds, is
    accepted and processing proceeds. *)
Theorem schema_validation :
  forall df : DataFrame,
    (forall col, first_missing df required_columns = Some col ->
       process_data parse_float parse_number parse_datetime str_of_scalar df
       = Ok (Rejected (missing_column_message col))
       /\ has_column df col = false
       /\ exists before after, required_columns = before ++ col :: after
            /\ forall c, In c before -> has_column df c = true)
    /\ ((exists c, In c required_columns /\ has_column df c = false) ->
        exists col, first_missing df required_columns = Some col)
    /\ ((forall c, In c required_columns -> has_column df c = true) ->
        exists df',
          process_data parse_float parse_number parse_datetime str_of_scalar df
          = Ok (Processed df')
          /\ columns df' = column_order)
    /\ ((exists c, In c StatisticsPage.required_columns /\ has_column df c = false) ->
        StatisticsPage.validate df = Some StatisticsPage.rejection_message)
    /\ (forall c, In c StatisticsPage.required_columns ->
        contains StatisticsPage.rejection_message c = true)
    /\ ((forall c, In c StatisticsPage.required_columns -> has_column df c = true) ->
        StatisticsPage.validate df = None).
Proof.
  intros df. split; [|split; [|split; [|split; [|split]]]].
  - intros col Hcol. split.
    + unfold process_data. rewrite Hcol. reflexivity.
    + apply first_missing_some. exact Hcol.
  - intros [c [Hin Hc]].
    destruct (first_missing df required_columns) as [col|] eqn:E.
    + exists col. reflexivity.
    + rewrite (proj1 (first_missing_none df required_columns) E c Hin) in Hc.
      discriminate.
  - apply process_data_accepts.
  - intros [c [Hin Hc]]. unfold StatisticsPage.validate.
    destruct (forallb (has_column df) StatisticsPage.required_columns) eqn:E;
      [|reflexivity].
    rewrite (proj1 (forallb_has_column df _) E c Hin) in Hc. discriminate.
  - intros c Hin. simpl in Hin.
    repeat (destruct Hin as [<- | Hin]; [vm_compute; reflexivity|]).
    destruct Hin.
  - intros Hall. unfold StatisticsPage.validate.
    rewrite (proj2 (forallb_has_column df _) Hall). reflexivity.
Qed.

End Schema.

(** C4 fails as stated: a table that lacks [Asin] and [Title] is rejected
    with a message that names [Asin] and does not name [Title]. *)
Lemma process_data_names_first_missing_only :
  process_data Examples.no_float Examples.no_number Examples.no_datetime
    Examples.no_str Examples.two_columns_short
  = Ok (Rejected (missing_column_message "Asin"))
  /\ has_column Examples.two_columns_short "Asin" = false
  /\ has_column Examples.two_columns_short "Title" = false
  /\ contains (missing_column_message "Asin") "Asin" = true
  /\ contains (missing_column_message "Asin") "Title" = false.
Proof. repeat split; vm_compute; reflexivity. Qed.

End ProcessDataFacts.

(* ================================================================== *)
(** ** Facts about group keys and sorting *)
(* ================================================================== *)

Module KeysFacts.

Lemma string_compare_refl (s : string) : String.compare s s = Eq.
Proof.
  pose proof (String.compare_antisym s s) as H.
  destruct (String.compare s s); [reflexivity | discriminate | discriminate].
Qed.

Lemma string_compare_eq (s t : string) : String.compare s t = Eq <-> s = t.
Proof.
  split; [apply String.compare_eq_iff | intros ->; apply string_compare_refl].
Qed.

Lemma bool_compare_eq (a b : bool) : Bool.compare a b = Eq <-> a = b.
Proof. destruct a, b; simpl; split; congruence. Qed.

Lemma value_compare_eqv (a b : value) : value_compare a b = Eq <-> key_eqv a b.
Proof.
  destruct a, b; simpl; try (split; [discriminate | contradiction]).
  - split; reflexivity.
  - apply string_compare_eq.
  - symmetry. apply Qeq_alt.
  - destruct (Z.compare_spec year year0) as [-> | H | H].
    + destruct (Z.compare_spec month month0) as [-> | H | H].
      * rewrite Z.compare_eq_iff. split; [intros ->; auto | intros [_ [_ ->]]; reflexivity].
      * split; [discriminate | intros [_ [-> _]]; lia].
      * split; [discriminate | intros [_ [-> _]]; lia].
    + split; [discriminate | intros [-> _]; lia].
    + split; [discriminate | intros [-> _]; lia].
  - apply bool_compare_eq.
Qed.

Lemma key_eqv_refl (a : value) : key_eqv a a.
Proof. destruct a; simpl; auto. reflexivity. Qed.

Lemma key_eqv_sym (a b : value) : key_eqv a b -> key_eqv b a.
Proof.
  destruct a, b; simpl; auto.
  - intros H. symmetry. exact H.
  - intros [-> [-> ->]]. auto.
Qed.


Lemma same_key_eqv (a b : value) : same_key a b = true <-> key_eqv a b.
Proof.
  unfold same_key. rewrite <- value_compare_eqv.
  destruct (value_compare a b); split; congruence.
Qed.


Lemma same_key_sym (a b : value) : same_key a b = true -> same_key b a = true.
Proof. rewrite !same_key_eqv. apply key_eqv_sym. Qed.



Section SortUniqFacts.

Context {A : Type}.
Variable cmp : A -> A -> comparison.






End SortUniqFacts.



Lemma In_rows_of {B : Type} (keys : Series) (g : value) (s : list B) (x : B) :
  In x (rows_of keys g s) <->
  exists k, In (k, x) (combine keys s) /\ same_key k g = true.
Proof.
  unfold rows_of. rewrite in_map_iff. split.
  - intros [[k y] [Hy Hin]]. simpl in Hy. subst y.
    apply filter_In in Hin as [Hin Hk]. exists k. split; [exact Hin | exact Hk].
  - intros [k [Hin Hk]]. exists (k, x). split; [reflexivity|].
    apply filter_In. split; [exact Hin | exact Hk].
Qed.

End KeysFacts.

(* ================================================================== *)
(** ** Grouped statistics *)
(* ================================================================== *)

Module AggregationFacts.
Import Utils FrameFacts KeysFacts.















End AggregationFacts.

Module GroupStatsFacts.
Import Utils FrameFacts KeysFacts AggregationFacts NumFacts.









Lemma Qsum_squares_nonneg (m : Q) (xs : list Q) :
  (0 <= Qsum (map (fun x => (x - m) * (x - m)) xs))%Q.
Proof.
  induction xs as [|x xs IH]; simpl; [lra|].
  assert (0 <= (x - m) * (x - m))%Q by (generalize (x - m)%Q; intros y; nra). lra.
Qed.

Lemma variance_nonneg (xs : list Q) :
  (2 <= List.length xs)%nat -> (0 <= variance xs)%Q.
Proof.
  intros Hn. unfold variance.
  set (n := inject_Z (Z.of_nat (List.length xs))).
  assert (Hn1 : (0 < n - 1)%Q).
  { assert (2 <= n)%Q; [|lra]. unfold n. change 2%Q with (inject_Z 2).
    rewrite <- Zle_Qle. lia. }
  apply Qle_shift_div_l; [exact Hn1|]. rewrite Qmult_0_l.
  apply Qsum_squares_nonneg.
Qed.

(** From two ratings on, the reported deviation is the square root of the
    sample variance to within half a hundredth. *)
Lemma std_round2_close (xs : list Q) :
  (2 <= List.length xs)%nat ->
  exists r, std_round2 xs = FFin r
    /\ (0 <= r)%Q
    /\ (variance xs <= (r + (1 # 200)) * (r + (1 # 200)))%Q
    /\ ((r == 0)%Q \/ ((r - (1 # 200)) * (r - (1 # 200)) <= variance xs)%Q).
Proof.
  intros Hn. exists (sqrt_round2 (variance xs)). split.
  - unfold std_round2. apply Nat.ltb_ge in Hn. rewrite Hn. reflexivity.
  - apply sqrt_round2_close. apply variance_nonneg. exact Hn.
Qed.



End GroupStatsFacts.

(* ================================================================== *)
(** ** Review-type summary and monthly trend *)
(* ================================================================== *)

Module TrendFacts.
Import Utils FrameFacts KeysFacts AggregationFacts.

Lemma key_eqv_trans (a b c : value) : key_eqv a b -> key_eqv b c -> key_eqv a c.
Proof.
  destruct a, b, c; simpl; try tauto; try congruence.
  - intros H1 H2. rewrite H1. exact H2.
  - intros [-> [-> ->]] H. exact H.
Qed.

Lemma In_insert_desc (x y : value * Z) (l : list (value * Z)) :
  In x (insert_desc y l) <-> x = y \/ In x l.
Proof.
  induction l as [|z l IH]; simpl.
  - split; [intros [<- | []]; left; reflexivity | intros [-> | []]; left; reflexivity].
  - destruct (snd z <=? snd y)%Z; simpl.
    + split; [intros [<- | H]; [left; reflexivity | right; exact H]
             | intros [-> | H]; [left; reflexivity | right; exact H]].
    + rewrite IH. split.
      * intros [<- | [-> | H]]; auto.
      * intros [-> | [<- | H]]; auto.
Qed.

Lemma In_sorted_desc (x : value * Z) (l : list (value * Z)) :
  In x (fold_right insert_desc [] l) <-> In x l.
Proof.
  induction l as [|y l IH]; simpl; [reflexivity|].
  rewrite In_insert_desc, IH. split; intros [H | H]; auto.
Qed.

Lemma distinct_covers (s : Series) (t : value) :
  In t s -> exists k, In k (distinct s) /\ key_eqv k t.
Proof.
  induction s as [|v s IH]; simpl; [intros []|].
  intros [<- | Hin].
  - exists v. split; [left; reflexivity | apply key_eqv_refl].
  - destruct (IH Hin) as [k [Hk Hkt]].
    destruct (same_key v k) eqn:E.
    + exists v. split; [left; reflexivity|].
      apply same_key_eqv in E. apply (key_eqv_trans v k t E Hkt).
    + exists k. split; [|exact Hkt]. right. apply filter_In.
      split; [exact Hk | rewrite E; reflexivity].
Qed.

Lemma count_key_pos (k t : value) (s : Series) :
  In t s -> key_eqv k t -> (1 <= count_key k s)%Z.
Proof.
  intros Hin Hk. unfold count_key.
  assert (H : In t (List.filter (same_key k) s)).
  { apply filter_In. split; [exact Hin | apply same_key_eqv; exact Hk]. }
  destruct (List.filter (same_key k) s); [destruct H | simpl; lia].
Qed.

(** A value that occurs in a column is counted by [value_counts], under
    its own key, with the number of its occurrences. *)
Lemma value_counts_covers (s : Series) (t : value) :
  In t s -> isna t = false ->
  exists k, In (k, count_key k s) (value_counts s)
            /\ key_eqv k t /\ (1 <= count_key k s)%Z.
Proof.
  intros Hin Hna. unfold value_counts.
  destruct (distinct_covers (List.filter notna s) t) as [k [Hk Hkt]].
  { apply filter_In. split; [exact Hin | unfold notna; rewrite Hna; reflexivity]. }
  exists k. split; [|split; [exact Hkt | apply (count_key_pos k t s Hin Hkt)]].
  apply In_sorted_desc. apply in_map_iff. exists k. split; [reflexivity | exact Hk].
Qed.




Lemma lookup_map {A B : Type} (f : A -> B) (l : list A) (i : nat) (a : A) :
  l !! i = Some a -> map f l !! i = Some (f a).
Proof.
  revert i. induction l as [|x l IH]; intros [|i]; simpl; try discriminate.
  - intros [= ->]. reflexivity.
  - apply IH.
Qed.





End TrendFacts.

(* ================================================================== *)
(** ** Effects on the caller's table *)
(* ================================================================== *)

Module EffectFacts.
Import Utils FrameFacts KeysFacts.

Lemma add_scalar_length (s t : Series) (b : value) :
  add_scalar s b = Ok t -> List.length t = List.length s.
Proof.
  revert t. induction s as [|a s IH]; intros t; simpl.
  - intros [= <-]. reflexivity.
  - destruct (str_add a b) as [c|e]; [|discriminate]. cbn [bind].
    destruct (add_scalar s b) as [rest|e]; [|discriminate]. cbn [bind].
    intros [= <-]. simpl. rewrite (IH rest eq_refl). reflexivity.
Qed.

Lemma add_series_length (s t u : Series) :
  add_series s t = Ok u -> List.length u = Nat.min (List.length s) (List.length t).
Proof.
  revert t u. induction s as [|a s IH]; intros [|b t] u; simpl;
    try (intros [= <-]; reflexivity).
  destruct (str_add a b) as [c|e]; [|discriminate]. cbn [bind].
  destruct (add_series s t) as [rest|e] eqn:E; [|discriminate]. cbn [bind].
  intros [= <-]. simpl. rewrite (IH t rest E). reflexivity.
Qed.

(** The derived column has one cell per row. *)
Lemma group_column_length (table : DataFrame) (group asin model : Series) :
  group_column table = Ok group ->
  getitem table "Asin" = Ok asin -> getitem table "Model" = Ok model ->
  List.length group = Nat.min (List.length asin) (List.length model).
Proof.
  unfold group_column. intros H Ha Hm. rewrite Ha in H. cbn [bind] in H.
  destruct (add_scalar asin (VStr " - ")) as [left|e] eqn:El; [|discriminate].
  cbn [bind] in H. rewrite Hm in H. cbn [bind] in H.
  rewrite (add_series_length _ _ _ H), (add_scalar_length _ _ _ El). reflexivity.
Qed.

Lemma month_column_length (table : DataFrame) (months dates : Series) :
  month_column table = Ok months -> getitem table "Date" = Ok dates ->
  List.length months = List.length dates.
Proof.
  unfold month_column. intros H Hd. rewrite Hd in H. cbn [bind] in H.
  destruct (is_datetime dates); [|discriminate]. injection H as <-.
  apply length_map.
Qed.

(** C9, as the code has it.  Both functions assign their derived column
    to the table the caller passed, not to a copy.  With the composite
    key, [analyze_by_group] leaves in the caller's table the column
    [Group] (one cell per row): appended when the table had no such
    column, overwriting it when it had one; [create_rating_trend_chart]
    does the same with [Month].  Every other column of the table, and
    every other table of the store, is as before.  When the derived
    column cannot be computed the table is untouched, and grouping by a
    single column touches nothing. *)
Theorem derived_columns_in_place :
  forall (df : positive) (cols : list string) (group_by : string)
         (h : gmap positive DataFrame) (table : DataFrame),
    h !! df = Some table ->
    (exists table',
        snd (analyze_by_group df (ByList cols) h) !! df = Some table'
        /\ (forall group, group_column table = Ok group ->
              table' = setitem table "Group" group
              /\ getitem table' "Group" = Ok group
              /\ columns table'
                 = (if has_column table "Group" then columns table
                    else columns table ++ ["Group"])
              /\ forall asin model,
                   getitem table "Asin" = Ok asin ->
                   getitem table "Model" = Ok model ->
                   List.length group
                   = Nat.min (List.length asin) (List.length model))
        /\ (raises (group_column table) -> table' = table)
        /\ (forall c, c <> "Group" -> getitem table' c = getitem table c))
    /\ (exists table',
        snd (create_rating_trend_chart df group_by h) !! df = Some table'
        /\ (forall months, month_column table = Ok months ->
              table' = setitem table "Month" months
              /\ getitem table' "Month" = Ok months
              /\ columns table'
                 = (if has_column table "Month" then columns table
                    else columns table ++ ["Month"])
              /\ forall dates, getitem table "Date" = Ok dates ->
                   List.length months = List.length dates)
        /\ (raises (month_column table) -> table' = table)
        /\ (forall c, c <> "Month" -> getitem table' c = getitem table c))
    /\ (forall other, other <> df ->
          snd (analyze_by_group df (ByList cols) h) !! other = h !! other
          /\ snd (create_rating_trend_chart df group_by h) !! other = h !! other)
    /\ (forall col, snd (analyze_by_group df (ByName col) h) = h).
Proof.
  intros df cols group_by h table Hdf. split; [|split; [|split]].
  - unfold analyze_by_group. rewrite Hdf.
    destruct (group_column table) as [group|e] eqn:Hg; cbn [snd].
    + exists (setitem table "Group" group). split; [apply lookup_insert_eq|].
      split; [|split].
      * intros group' [= <-]. split; [reflexivity|].
        split; [apply getitem_setitem_eq|]. split; [apply columns_setitem|].
        intros asin model Ha Hm. apply (group_column_length table); assumption.
      * intros [e' He]. discriminate.
      * intros c Hc. apply getitem_setitem_ne. congruence.
    + exists table. split; [exact Hdf|]. split; [|split].
      * intros group [=].
      * intros _. reflexivity.
      * intros c _. reflexivity.
  - unfold create_rating_trend_chart. rewrite Hdf.
    destruct (month_column table) as [months|e] eqn:Hm; cbn [snd].
    + exists (setitem table "Month" months). split; [apply lookup_insert_eq|].
      split; [|split].
      * intros months' [= <-]. split; [reflexivity|].
        split; [apply getitem_setitem_eq|]. split; [apply columns_setitem|].
        intros dates Hd. apply (month_column_length table); assumption.
      * intros [e' He]. discriminate.
      * intros c Hc. apply getitem_setitem_ne. congruence.
    + exists table. split; [exact Hdf|]. split; [|split].
      * intros months [=].
      * intros _. reflexivity.
      * intros c _. reflexivity.
  - intros other Hne. unfold analyze_by_group, create_rating_trend_chart.
    rewrite Hdf. split.
    + destruct (group_column table); cbn [snd]; [|reflexivity].
      apply lookup_insert_ne. congruence.
    + destruct (month_column table); cbn [snd]; [|reflexivity].
      apply lookup_insert_ne. congruence.
  - intros col. unfold analyze_by_group. rewrite Hdf. reflexivity.
Qed.

(** The three reviews of the scenario, held by the caller under one
    reference. *)
Lemma derived_columns_in_place_witness :
    (exists table',
        snd (analyze_by_group 1%positive (ByList ["Asin"; "Model"]) (Examples.one_table Examples.three_reviews)) !! 1%positive = Some table'
        /\ (forall group, group_column Examples.three_reviews = Ok group ->
              table' = setitem Examples.three_reviews "Group" group
              /\ getitem table' "Group" = Ok group
              /\ columns table'
                 = (if has_column Examples.three_reviews "Group" then columns Examples.three_reviews
                    else columns Examples.three_reviews ++ ["Group"])
              /\ forall asin model,
                   getitem Examples.three_reviews "Asin" = Ok asin ->
                   getitem Examples.three_reviews "Model" = Ok model ->
                   List.length group
                   = Nat.min (List.length asin) (List.length model))
        /\ (raises (group_column Examples.three_reviews) -> table' = Examples.three_reviews)
        /\ (forall c, c <> "Group" -> getitem table' c = getitem Examples.three_reviews c))
    /\ (exists table',
        snd (create_rating_trend_chart 1%positive "Asin" (Examples.one_table Examples.three_reviews)) !! 1%positive = Some table'
        /\ (forall months, month_column Examples.three_reviews = Ok months ->
              table' = setitem Examples.three_reviews "Month" months
              /\ getitem table' "Month" = Ok months
              /\ columns table'
                 = (if has_column Examples.three_reviews "Month" then columns Examples.three_reviews
                    else columns Examples.three_reviews ++ ["Month"])
              /\ forall dates, getitem Examples.three_reviews "Date" = Ok dates ->
                   List.length months = List.length dates)
        /\ (raises (month_column Examples.three_reviews) -> table' = Examples.three_reviews)
        /\ (forall c, c <> "Month" -> getitem table' c = getitem Examples.three_reviews c))
    /\ (forall other, other <> 1%positive ->
          snd (analyze_by_group 1%positive (ByList ["Asin"; "Model"]) (Examples.one_table Examples.three_reviews)) !! other = (Examples.one_table Examples.three_reviews) !! other
          /\ snd (create_rating_trend_chart 1%positive "Asin" (Examples.one_table Examples.three_reviews)) !! other = (Examples.one_table Examples.three_reviews) !! other)
    /\ (forall col, snd (analyze_by_group 1%positive (ByName col) (Examples.one_table Examples.three_reviews)) = (Examples.one_table Examples.three_reviews)).
Proof.
  apply (derived_columns_in_place 1%positive ["Asin"; "Model"] "Asin"
           (Examples.one_table Examples.three_reviews) Examples.three_reviews).
  reflexivity.
Defined.

(** C9 fails as stated: the uploaded table already has a column [Group];
    after the call that column holds the derived keys, not what it
    held. *)
Lemma existing_group_column_overwritten :
  getitem Examples.grouped_by_hand "Group"
  = Ok [VStr "north"; VStr "south"; VStr "south"]
  /\ snd (analyze_by_group 1%positive (ByList ["Asin"; "Model"])
            {[1%positive := Examples.grouped_by_hand]}) !! 1%positive
     = Some Examples.three_reviews_grouped
  /\ getitem Examples.three_reviews_grouped "Group"
     = Ok [VStr "A1 - M1"; VStr "A1 - M1"; VStr "A1 - M2"].
Proof. repeat split; vm_compute; reflexivity. Qed.

End EffectFacts.

(* ================================================================== *)
(** ** The category store *)
(* ================================================================== *)

Module CategoryStoreFacts.
Import CategoryStore.

Lemma app_assoc_s (a b c : string) : (a +:+ b) +:+ c = a +:+ (b +:+ c).
Proof.
  induction a as [|x a IH]; [reflexivity|].
  change (String x ((a +:+ b) +:+ c) = String x (a +:+ (b +:+ c))).
  rewrite IH. reflexivity.
Qed.

Lemma app_cons_s (x : ascii) (a b : string) : String x a +:+ b = String x (a +:+ b).
Proof. reflexivity. Qed.

Lemma app_nil_s (b : string) : EmptyString +:+ b = b.
Proof. reflexivity. Qed.

(** What the encoder writes for one character, the scanner reads back as
    that character. *)
Lemma scanstring_escape_char (c : ascii) (rest : string) :
  scanstring (escape_char c +:+ rest) = prepend (String c EmptyString) (scanstring rest).
Proof. destruct c as [[] [] [] [] [] [] [] []]; reflexivity. Qed.

Lemma scanstring_escape (s rest : string) :
  scanstring (escape s +:+ String quote rest) = Ok (s, rest).
Proof.
  induction s as [|c s IH].
  - reflexivity.
  - change (escape (String c s)) with (escape_char c +:+ escape s).
    rewrite app_assoc_s, scanstring_escape_char, IH. reflexivity.
Qed.

Lemma encode_basestring_app (s rest : string) :
  encode_basestring s +:+ rest = encoded s rest.
Proof.
  unfold encode_basestring, encoded. rewrite app_cons_s, app_assoc_s. reflexivity.
Qed.

Lemma encode_item_app (kv : string * string) (rest : string) :
  encode_item kv +:+ rest
  = encoded (fst kv) (String ":" (String " " (encoded (snd kv) rest))).
Proof.
  unfold encode_item. rewrite !app_assoc_s, !encode_basestring_app. reflexivity.
Qed.

Lemma encode_items_cons (kv : string * string) (items : dict) (rest : string) :
  encode_items (kv :: items) +:+ rest
  = encode_item kv +:+
      match items with
      | [] => rest
      | _ => item_separator +:+ (encode_items items +:+ rest)
      end.
Proof.
  destruct items as [|kv' items].
  - reflexivity.
  - change (encode_items (kv :: kv' :: items))
      with (encode_item kv +:+ item_separator +:+ encode_items (kv' :: items)).
    rewrite !app_assoc_s. reflexivity.
Qed.

(** The members the encoder wrote are read back, in order, with one unit
    of fuel per member. *)
Lemma parse_members_encode (items : dict) :
  items <> [] ->
  forall (fuel : nat) (tail s : string),
    (List.length items <= fuel)%nat ->
    String quote s = encode_items items +:+ String newline (String "}" tail) ->
    parse_members fuel s = Ok (items, tail).
Proof.
  induction items as [|[k v] items IH]; [contradiction|].
  intros _ fuel tail s Hfuel Hs.
  destruct fuel as [|fuel]; [simpl in Hfuel; lia|].
  rewrite encode_items_cons, encode_item_app in Hs. unfold encoded at 1 in Hs.
  injection Hs as ->. cbn [fst snd].
  cbn [parse_members]. rewrite (scanstring_escape k). cbn [bind fst snd].
  unfold encoded.
  change (skip_space (String ":" (String " " (String quote ?x))))
    with (String ":" (String " " (String quote x))).
  cbv beta iota.
  destruct items as [|kv' items].
  - change (skip_space (String " " (String quote ?x))) with (String quote x).
    cbv beta iota. 
    change (Ascii.eqb quote quote) with true. cbv iota.
    rewrite (scanstring_escape v). cbn [bind fst snd]. reflexivity.
  - change (skip_space (String " " (String quote ?x))) with (String quote x).
    cbv beta iota. change (Ascii.eqb quote quote) with true. cbv iota.
    rewrite (scanstring_escape v). cbn [bind fst snd].
    unfold item_separator. rewrite !app_cons_s.
    assert (Hrest : exists s', String quote s'
              = encode_items (kv' :: items) +:+ String newline (String "}" tail)).
    { rewrite encode_items_cons, encode_item_app. unfold encoded at 1.
      eexists. reflexivity. }
    destruct Hrest as [s' Hs']. rewrite app_nil_s, <- Hs'.
    change (skip_space (String "," ?x)) with (String "," x). cbv beta iota.
    change (skip_space (String newline (String " " (String " " (String quote s')))))
      with (String quote s').
    cbv beta iota. change (Ascii.eqb quote quote) with true. cbv iota.
    rewrite (IH ltac:(discriminate) fuel tail s' ltac:(simpl in Hfuel; simpl; lia) Hs').
    reflexivity.
Qed.

Lemma length_append_s (a b : string) :
  String.length (a +:+ b) = (String.length a + String.length b)%nat.
Proof.
  induction a as [|x a IH]; [reflexivity|].
  rewrite app_cons_s. simpl. rewrite IH. reflexivity.
Qed.

Lemma append_empty_s (s : string) : s +:+ EmptyString = s.
Proof.
  induction s as [|x s IH]; [reflexivity|]. rewrite app_cons_s, IH. reflexivity.
Qed.

Lemma encode_item_length (kv : string * string) :
  (1 <= String.length (encode_item kv))%nat.
Proof.
  unfold encode_item, encode_basestring. rewrite app_cons_s.
  change (String.length (String quote ?x)) with (S (String.length x)). lia.
Qed.

Lemma encode_items_length (items : dict) :
  (List.length items <= String.length (encode_items items))%nat.
Proof.
  induction items as [|kv items IH]; [simpl; lia|].
  pose proof (encode_items_cons kv items EmptyString) as H.
  rewrite append_empty_s in H. rewrite H, length_append_s.
  pose proof (encode_item_length kv) as Hkv.
  destruct items as [|kv' items].
  - simpl List.length. lia.
  - rewrite length_append_s, append_empty_s.
    change (List.length (kv :: kv' :: items)) with (S (List.length (kv' :: items))).
    lia.
Qed.

(** Decoding what the encoder wrote gives the pairs back. *)
Lemma json_loads_dumps (d : dict) : json_loads (json_dumps d) = Ok (dict_of_pairs d).
Proof.
  destruct d as [|kv items]; [reflexivity|].
  assert (Hs : exists s, String quote s
             = encode_items (kv :: items) +:+ String newline (String "}" EmptyString)).
  { rewrite encode_items_cons, encode_item_app. unfold encoded at 1.
    eexists. reflexivity. }
  destruct Hs as [s Hs].
  assert (Htext : json_dumps (kv :: items)
                  = String "{" (String newline (String " " (String " " (String quote s))))).
  { rewrite Hs. reflexivity. }
  assert (Hfuel : (List.length (kv :: items)
                   <= String.length (json_dumps (kv :: items)))%nat).
  { rewrite Htext, Hs.
    change (String.length (String "{" (String newline (String " " (String " " ?x)))))
      with (S (S (S (S (String.length x))))).
    rewrite length_append_s.
    pose proof (encode_items_length (kv :: items)). lia. }
  unfold json_loads. rewrite Htext in *.
  change (skip_space (String "{" ?x)) with (String "{" x). cbv beta iota.
  change (skip_space (String newline (String " " (String " " (String quote s)))))
    with (String quote s).
  cbv beta iota. change (Ascii.eqb quote quote) with true. cbv iota.
  rewrite (parse_members_encode (kv :: items) ltac:(discriminate) _ EmptyString s
             Hfuel Hs).
  reflexivity.
Qed.

Lemma dict_set_fresh (d : dict) (k v : string) :
  ~ In k (map fst d) -> dict_set d k v = d ++ [(k, v)].
Proof.
  induction d as [|[k' v'] d IH]; simpl; [reflexivity|].
  intros H. destruct (String.eqb k' k) eqn:E.
  - apply String.eqb_eq in E. exfalso. apply H. left. exact E.
  - rewrite IH; [reflexivity|]. intros Hin. apply H. right. exact Hin.
Qed.

Lemma fold_dict_set (pairs acc : dict) :
  List.NoDup (map fst (acc ++ pairs)) ->
  fold_left (fun d kv => dict_set d (fst kv) (snd kv)) pairs acc = acc ++ pairs.
Proof.
  revert acc. induction pairs as [|[k v] pairs IH]; intros acc Hnd; simpl.
  - rewrite app_nil_r. reflexivity.
  - assert (Hfresh : ~ In k (map fst acc)).
    { rewrite map_app in Hnd. simpl in Hnd.
      apply NoDup_remove_2 in Hnd. intros Hin. apply Hnd.
      apply in_or_app. left. exact Hin. }
    rewrite (dict_set_fresh acc k v Hfresh).
    rewrite IH; rewrite <- app_assoc; [reflexivity | exact Hnd].
Qed.

(** A list of pairs with distinct keys is the dict it builds. *)
Lemma dict_of_pairs_id (d : dict) : List.NoDup (map fst d) -> dict_of_pairs d = d.
Proof. intros H. unfold dict_of_pairs. apply (fold_dict_set d [] H). Qed.

(** C8.  Whatever the store holds, names and keywords with bytes
    outside ASCII and empty keyword strings included, loading after
    saving gives the same mapping, in the same order; and when the file
    is absent, loading gives the empty mapping. *)
Theorem category_store_round_trip :
  forall (categories : dict) (fs : gmap string string),
    List.NoDup (map fst categories) ->
    load_categories (save_categories categories fs) = Ok categories
    /\ load_categories (delete categories_file fs) = Ok [].
Proof.
  intros categories fs Hnd. unfold load_categories, save_categories. split.
  - rewrite lookup_insert_eq, json_loads_dumps, (dict_of_pairs_id _ Hnd).
    reflexivity.
  - rewrite lookup_delete_eq. reflexivity.
Qed.

(** A store with a name and keywords outside ASCII and a category
    without keywords. *)
Lemma category_store_round_trip_witness :
  load_categories (save_categories Examples.sample_categories ∅)
  = Ok Examples.sample_categories
  /\ load_categories (delete categories_file ∅) = Ok [].
Proof.
  apply (category_store_round_trip Examples.sample_categories ∅).
  repeat constructor; simpl; intuition discriminate.
Defined.

End CategoryStoreFacts.

(* ================================================================== *)
(** ** process_data: the processed table *)
(* ================================================================== *)

Module ProcessedTableFacts.
Import Utils FrameFacts PyFacts ProcessDataFacts.

Lemma rstrip_idempotent (s : string) : rstrip (rstrip s) = rstrip s.
Proof.
  induction s as [|c s IH]; [reflexivity|].
  simpl. destruct (is_space c && is_empty (rstrip s)) eqn:E; [reflexivity|].
  simpl. rewrite IH, E. reflexivity.
Qed.

Lemma lstrip_fixed (s : string) :
  match s with
  | EmptyString => True
  | String c _ => is_space c = false
  end -> lstrip s = s.
Proof. destruct s as [|c s]; [reflexivity|]. simpl. intros ->. reflexivity. Qed.

Lemma rstrip_head (s : string) :
  match s with
  | EmptyString => True
  | String c _ => is_space c = false
  end ->
  match rstrip s with
  | EmptyString => True
  | String c _ => is_space c = false
  end.
Proof.
  destruct s as [|c s]; [intros _; exact I|]. simpl. intros H. rewrite H. simpl.
  exact H.
Qed.

(** Trimming a trimmed text changes nothing. *)
Lemma strip_idempotent (s : string) : strip (strip s) = strip s.
Proof.
  unfold strip.
  rewrite (lstrip_fixed (rstrip (lstrip s))).
  - apply rstrip_idempotent.
  - apply rstrip_head. apply ClassificationFacts.lstrip_head.
Qed.

Section Processed.

Variable parse_float : string -> option pyfloat.
Variable parse_number : string -> option Q.
Variable parse_datetime : value -> option (Z * Z * Z).
Variable str_of_scalar : value -> string.

(** The table [process_data] builds from the six required columns. *)
Lemma process_data_closed_form (df : DataFrame)
    (asin title content model rating date : Series) :
  getitem df "Asin" = Ok asin -> getitem df "Title" = Ok title ->
  getitem df "Content" = Ok content -> getitem df "Model" = Ok model ->
  getitem df "Rating" = Ok rating -> getitem df "Date" = Ok date ->
  exists types,
    apply_review_type parse_float (map (to_numeric_coerce parse_number) rating)
    = Ok types
    /\ process_data parse_float parse_number parse_datetime str_of_scalar df
       = Ok (Processed
               [("ID", id_column (List.length asin));
                ("Asin", asin);
                ("Title", map (astype_str_strip str_of_scalar) title);
                ("Content", map (astype_str_strip str_of_scalar) content);
                ("Model", map (astype_str_strip str_of_scalar) model);
                ("Rating", map (to_numeric_coerce parse_number) rating);
                ("Date", map (to_datetime_coerce parse_datetime) date);
                ("Review Type", types)]).
Proof.
  intros H1 H2 H3 H4 H5 H6.
  destruct (apply_review_type_ok parse_float (map (to_numeric_coerce parse_number) rating))
    as [types [Ht _]].
  exists types. split; [exact Ht|].
  assert (Hall : forall c, In c required_columns -> has_column df c = true).
  { intros c Hin. apply has_column_getitem. simpl in Hin.
    repeat (destruct Hin as [<- | Hin]; [eexists; eassumption|]). destruct Hin. }
  unfold process_data.
  rewrite (proj2 (first_missing_none df required_columns) Hall).
  unfold required_columns, select. rewrite H1, H2, H3, H4, H5, H6.
  cbn -[apply_review_type id_column]. rewrite Ht. cbn -[id_column]. reflexivity.
Qed.

Lemma to_numeric_coerce_cases (v : value) :
  to_numeric_coerce parse_number v = VNaN
  \/ exists q, to_numeric_coerce parse_number v = VNum q.
Proof.
  destruct v as [|s|q|y m d|b]; simpl; eauto.
  destruct (parse_number s); eauto.
Qed.

(** The label of one cleaned rating. *)
Lemma get_review_type_cleaned (r : value) :
  (r = VNaN \/ exists q, r = VNum q) ->
  exists label,
    get_review_type parse_float (pyobj_of_value r) = Ok label
    /\ ((r = VNaN /\ label = "negative")
        \/ exists q, r = VNum q
             /\ (((4 <= q)%Q /\ label = "positive")
                 \/ ((q == 3)%Q /\ label = "neutral")
                 \/ ((q < 4)%Q /\ ~ (q == 3)%Q /\ label = "negative"))).
Proof.
  intros [-> | [q ->]].
  - exists "negative". split; [reflexivity | left; auto].
  - unfold get_review_type. simpl.
    destruct (Qle_bool 4 q) eqn:E4.
    + exists "positive". split; [reflexivity|]. right. exists q.
      split; [reflexivity|]. left. split; [apply Qle_bool_iff; exact E4 | reflexivity].
    + assert (Hlt : (q < 4)%Q).
      { apply Qnot_le_lt. intros H. apply Qle_bool_iff in H. congruence. }
      destruct (Qeq_bool q 3) eqn:E3.
      * exists "neutral". split; [reflexivity|]. right. exists q.
        split; [reflexivity|]. right. left.
        split; [apply Qeq_bool_iff; exact E3 | reflexivity].
      * exists "negative". split; [reflexivity|]. right. exists q.
        split; [reflexivity|]. right. right. split; [exact Hlt|].
        split; [|reflexivity]. intros H. apply Qeq_bool_iff in H. congruence.
Qed.

Lemma apply_review_type_cells (s types : Series) :
  (forall r, In r s -> r = VNaN \/ exists q, r = VNum q) ->
  apply_review_type parse_float s = Ok types ->
  Forall2
    (fun r t =>
       (r = VNaN /\ t = VStr "negative")
       \/ exists q, r = VNum q
            /\ (((4 <= q)%Q /\ t = VStr "positive")
                \/ ((q == 3)%Q /\ t = VStr "neutral")
                \/ ((q < 4)%Q /\ ~ (q == 3)%Q /\ t = VStr "negative")))
    s types.
Proof.
  revert types. induction s as [|r s IH]; intros types Hs; simpl.
  - intros [= <-]. constructor.
  - destruct (get_review_type_cleaned r (Hs r (or_introl eq_refl)))
      as [label [Hl Hcases]].
    rewrite Hl. cbn [bind].
    destruct (apply_review_type parse_float s) as [rest|e] eqn:Er; [|discriminate].
    cbn [bind]. intros [= <-]. constructor.
    + destruct Hcases as [[-> ->] | [q [-> Hq]]]; [left; auto|].
      right. exists q. split; [reflexivity|].
      destruct Hq as [[H ->] | [[H ->] | [H1 [H2 ->]]]]; auto.
    + apply IH; [|reflexivity]. intros r' Hin. apply Hs. right. exact Hin.
Qed.

(** X1.  A table that has the six required columns, each with [n] cells,
    is processed to the eight columns of the fixed order, each with [n]
    cells: the rows are kept, in their order.  [Asin] is carried over as
    it is and [ID] numbers the rows 1, 2, ..., [n]. *)
Theorem process_data_keeps_rows :
  forall (df : DataFrame) (asin title content model rating date : Series) (n : nat),
    getitem df "Asin" = Ok asin -> getitem df "Title" = Ok title ->
    getitem df "Content" = Ok content -> getitem df "Model" = Ok model ->
    getitem df "Rating" = Ok rating -> getitem df "Date" = Ok date ->
    List.length asin = n /\ List.length title = n /\ List.length content = n
    /\ List.length model = n /\ List.length rating = n /\ List.length date = n ->
    exists df' ids,
      process_data parse_float parse_number parse_datetime str_of_scalar df
      = Ok (Processed df')
      /\ columns df' = column_order
      /\ (forall c, In c column_order ->
          exists col, getitem df' c = Ok col /\ List.length col = n)
      /\ getitem df' "Asin" = Ok asin
      /\ getitem df' "ID" = Ok ids
      /\ forall i, (i < n)%nat ->
           ids !! i = Some (VNum (inject_Z (Z.of_nat (S i)))).
Proof.
  intros df asin title content model rating date n H1 H2 H3 H4 H5 H6
    [L1 [L2 [L3 [L4 [L5 L6]]]]].
  destruct (process_data_closed_form df asin title content model rating date
              H1 H2 H3 H4 H5 H6) as [types [Ht Hrun]].
  destruct (apply_review_type_ok parse_float (map (to_numeric_coerce parse_number) rating))
    as [types' [Ht' Hlen]].
  rewrite Ht in Ht'. injection Ht' as <-. rewrite length_map in Hlen.
  eexists _, (id_column n). split; [exact Hrun|]. rewrite L1.
  split; [reflexivity|]. split; [|split; [reflexivity|split; [reflexivity|]]].
  - intros c Hin. simpl in Hin.
    repeat (destruct Hin as [<- | Hin];
            [eexists; split; [reflexivity|];
             rewrite ?length_map; unfold id_column;
             rewrite ?length_map, ?length_seq; congruence|]).
    destruct Hin.
  - intros i Hi. unfold id_column.
    apply (TrendFacts.lookup_map (fun k => VNum (inject_Z (Z.of_nat k))) (seq 1 n) i (S i)).
    apply lookup_seq_lt. exact Hi.
Qed.



End Processed.

(** A raw table of three rows: a rating given as text, a date given as
    text, a missing cell in each of the text columns and one extra
    column. *)
Lemma process_data_keeps_rows_witness :
  exists df' ids,
    process_data Examples.no_float Examples.no_number Examples.no_datetime
      Examples.no_str Samples.raw_upload
    = Ok (Processed df')
    /\ columns df' = column_order
    /\ (forall c, In c column_order ->
        exists col, getitem df' c = Ok col /\ List.length col = 3%nat)
    /\ getitem df' "Asin" = Ok [VStr "A1"; VStr "A1"; VStr "B2"]
    /\ getitem df' "ID" = Ok ids
    /\ forall i, (i < 3)%nat ->
         ids !! i = Some (VNum (inject_Z (Z.of_nat (S i)))).
Proof.
  apply (process_data_keeps_rows Examples.no_float Examples.no_number
           Examples.no_datetime Examples.no_str Samples.raw_upload
           [VStr "A1"; VStr "A1"; VStr "B2"]
           [VStr " Nice "; VNaN; VStr "Bad"]
           [VStr "great gift for my girl"; VStr "ok"; VNaN]
           [VStr "M1"; VNaN; VStr "M2 "]
           [VNum 5; VStr "abc"; VNum 3]
           [VDate 2024 1 5; VStr "soon"; VNaN] 3%nat);
    try reflexivity.
  repeat split; reflexivity.
Defined.



End ProcessedTableFacts.

(* ================================================================== *)
(** ** The classification engine on a table with rows *)
(* ================================================================== *)

Module EngineFacts.
Import KeywordMatch EngineSpec PyFacts FrameFacts NumFacts.

Lemma setitem_fresh (df : DataFrame) (col : string) (s : Series) :
  has_column df col = false -> setitem df col s = df ++ [(col, s)].
Proof.
  unfold has_column, columns. induction df as [|[name s0] df IH]; simpl.
  - reflexivity.
  - rewrite (String.eqb_sym col name). destruct (String.eqb name col); simpl.
    + discriminate.
    + intros H. rewrite (IH H). reflexivity.
Qed.

Lemma has_column_app (a b : DataFrame) (col : string) :
  has_column (a ++ b) col = has_column a col || has_column b col.
Proof. unfold has_column, columns. rewrite map_app, existsb_app. reflexivity. Qed.

Lemma getitem_app (a b : DataFrame) (col : string) :
  getitem (a ++ b) col = if has_column a col then getitem a col else getitem b col.
Proof.
  unfold has_column, columns. induction a as [|[name s0] a IH]; simpl.
  - reflexivity.
  - rewrite (String.eqb_sym col name). destruct (String.eqb name col); simpl.
    + reflexivity.
    + exact IH.
Qed.

Lemma column_name_inj (c c' : string) : column_name c = column_name c' -> c = c'.
Proof. unfold column_name. intros H. injection H as H. exact H. Qed.

Section Engine.

Variable str_of_scalar : value -> string.

Lemma has_column_category_columns (content : Series)
    (categories : list (string * string)) (c : string) :
  has_column (map (category_column str_of_scalar content) categories) (column_name c) = true
  <-> In c (map fst categories).
Proof.
  unfold has_column, columns. rewrite existsb_exists. split.
  - intros [name [Hin Heq]]. apply String.eqb_eq in Heq.
    apply in_map_iff in Hin as [[name' s] [Hname Hin]]. simpl in Hname. subst name'.
    apply in_map_iff in Hin as [[c' raw] [Hcol Hin]].
    unfold category_column in Hcol. simpl in Hcol. injection Hcol as Hcol _.
    rewrite <- Hcol in Heq. apply column_name_inj in Heq. subst c'.
    apply in_map_iff. exists (c, raw). split; [reflexivity | exact Hin].
  - intros Hin. apply in_map_iff in Hin as [[c' raw] [Hc Hin]]. simpl in Hc. subst c'.
    exists (column_name c). split; [|apply String.eqb_refl].
    apply in_map_iff. exists (category_column str_of_scalar content (c, raw)).
    split; [reflexivity|]. apply in_map_iff. exists (c, raw). split; [reflexivity | exact Hin].
Qed.

Lemma add_category_columns_closed (df : DataFrame) (content : Series)
    (categories : list (string * string)) :
  getitem df "Content" = Ok content ->
  List.NoDup (map fst categories) ->
  forall results,
    (forall c, In c (map fst categories) ->
       has_column results (column_name c) = false) ->
    add_category_columns str_of_scalar df results categories
    = Ok (results ++ map (category_column str_of_scalar content) categories).
Proof.
  intros Hc. induction categories as [|[c raw] rest IH]; intros Hnd results Hfresh.
  - simpl. rewrite app_nil_r. reflexivity.
  - simpl. rewrite Hc. cbn [bind].
    rewrite (setitem_fresh results (column_name c)); [|apply Hfresh; left; reflexivity].
    inversion Hnd as [|? ? Hnotin Hnd']; subst.
    rewrite IH; [rewrite <- app_assoc; reflexivity | exact Hnd'|].
    intros c' Hin. rewrite has_column_app, (Hfresh c' (or_intror Hin)).
    unfold has_column, columns. cbn [map fst existsb orb]. rewrite orb_false_r.
    destruct (String.eqb (column_name c') (column_name c)) eqn:E; [|reflexivity].
    apply String.eqb_eq, column_name_inj in E. subst c'. contradiction.
Qed.

Lemma getitem_category_column (content : Series)
    (categories : list (string * string)) (c raw : string) :
  List.NoDup (map fst categories) -> In (c, raw) categories ->
  getitem (map (category_column str_of_scalar content) categories) (column_name c)
  = Ok (snd (category_column str_of_scalar content (c, raw))).
Proof.
  induction categories as [|[c0 raw0] rest IH]; [intros _ []|].
  intros Hnd Hin. inversion Hnd as [|? ? Hnotin Hnd']; subst.
  cbn [map]. unfold category_column at 1. cbn [getitem fst snd].
  destruct (String.eqb (column_name c0) (column_name c)) eqn:E.
  - apply String.eqb_eq, column_name_inj in E. subst c0.
    destruct Hin as [[= ->] | Hin]; [reflexivity|].
    exfalso. apply Hnotin. apply in_map_iff. exists (c, raw). split; [reflexivity | exact Hin].
  - destruct Hin as [[= -> ->] | Hin].
    + rewrite String.eqb_refl in E. discriminate.
    + apply IH; assumption.
Qed.


Lemma collect_stats_closed (content : Series) (nrows : nat) (results : DataFrame)
    (categories : list (string * string)) :
  nrows <> 0%nat ->
  (forall c raw, In (c, raw) categories ->
     getitem results (column_name c) = Ok (snd (category_column str_of_scalar content (c, raw)))) ->
  collect_stats results nrows categories
  = Ok (map (category_stat str_of_scalar content nrows) categories).
Proof.
  intros Hn. induction categories as [|[c raw] rest IH]; intros Hget; [reflexivity|].
  simpl. rewrite (Hget c raw (or_introl eq_refl)). cbn [bind].
  unfold truediv. destruct (Z.eqb_spec (Z.of_nat nrows) 0) as [E|_]; [lia|].
  cbn [bind]. rewrite IH; [reflexivity|].
  intros c' raw' Hin. apply Hget. right. exact Hin.
Qed.

(** What [analyze_reviews] returns on a table with rows. *)
Lemma analyze_reviews_closed_form (df : DataFrame) (ids content types : Series)
    (categories : list (string * string)) :
  getitem df "ID" = Ok ids -> getitem df "Content" = Ok content ->
  getitem df "Review Type" = Ok types ->
  len df <> 0%nat -> List.NoDup (map fst categories) ->
  analyze_reviews str_of_scalar df categories
  = Ok ([("ID", ids); ("Content", content); ("Original Review Type", types)]
        ++ map (category_column str_of_scalar content) categories,
        map (category_stat str_of_scalar content (len df)) categories).
Proof.
  intros Hid Hc Ht Hn Hnd. unfold analyze_reviews. rewrite Hid, Hc, Ht. cbn [bind].
  rewrite (add_category_columns_closed df content categories Hc Hnd);
    [|intros c _; reflexivity].
  cbn [bind]. rewrite (collect_stats_closed content); [reflexivity | exact Hn|].
  intros c raw Hin. rewrite getitem_app.
  change (has_column (setitem (setitem (setitem [] "ID" ids) "Content" content)
                        "Original Review Type" types) (column_name c)) with false.
  cbv iota. apply getitem_category_column; assumption.
Qed.



(** X4.  On a table with rows and categories of distinct names, the
    result keeps [ID], [Content] and the review type as they are and has
    one boolean column per category, in the order of the mapping; the
    column of a category is computed from the content and that
    category's own keywords alone, whatever the other categories are: a
    row may match none, one or several categories. *)
Theorem category_columns_independent :
  forall (df : DataFrame) (ids content types : Series)
         (categories : list (string * string)),
    getitem df "ID" = Ok ids -> getitem df "Content" = Ok content ->
    getitem df "Review Type" = Ok types ->
    len df <> 0%nat -> List.NoDup (map fst categories) ->
    exists results stats,
      analyze_reviews str_of_scalar df categories = Ok (results, stats)
      /\ columns results
         = ["ID"; "Content"; "Original Review Type"]
           ++ map column_name (map fst categories)
      /\ getitem results "ID" = Ok ids
      /\ getitem results "Content" = Ok content
      /\ getitem results "Original Review Type" = Ok types
      /\ forall c raw, In (c, raw) categories ->
           getitem results (column_name c)
           = Ok (map (fun x => VBool (match_keywords str_of_scalar x
                                        (map strip (split "," raw)))) content).
Proof.
  intros df ids content types categories Hid Hc Ht Hn Hnd.
  eexists _, _. split; [apply (analyze_reviews_closed_form df ids content types); assumption|].
  split; [|split; [reflexivity | split; [reflexivity | split; [reflexivity|]]]].
  - unfold columns. rewrite map_app, !map_map. reflexivity.
  - intros c raw Hin. rewrite getitem_app.
    change (has_column [("ID", ids); ("Content", content);
                        ("Original Review Type", types)] (column_name c)) with false.
    cbv iota. apply (getitem_category_column content categories c raw Hnd Hin).
Qed.


(** X6.  One blank piece in a keyword string, as a trailing or a doubled
    comma leaves one, makes the category match every row whose content
    is present, whatever the other keywords are. *)
Theorem blank_piece_matches_everything :
  forall (raw piece : string) (text : value),
    In piece (split "," raw) -> strip piece = EmptyString -> isna text = false ->
    match_keywords str_of_scalar text (map strip (split "," raw)) = true.
Proof.
  intros raw piece text Hin Hblank Htext. unfold match_keywords. rewrite Htext.
  apply existsb_exists. exists EmptyString. split.
  - rewrite <- Hblank. apply in_map. exact Hin.
  - apply contains_empty.
Qed.

End Engine.

(** Two reviews and two categories whose keywords share no word. *)
Lemma category_columns_independent_witness :
  exists results stats,
    analyze_reviews Examples.no_str Samples.two_reviews Samples.two_categories
    = Ok (results, stats)
    /\ columns results
       = ["ID"; "Content"; "Original Review Type"]
         ++ map column_name (map fst Samples.two_categories)
    /\ getitem results "ID" = Ok [VNum 1; VNum 2]
    /\ getitem results "Content"
       = Ok [VStr "great gift for my girl, she takes it to the gym"; VNaN]
    /\ getitem results "Original Review Type"
       = Ok [VStr "positive"; VStr "negative"]
    /\ forall c raw, In (c, raw) Samples.two_categories ->
         getitem results (column_name c)
         = Ok (map (fun x => VBool (match_keywords Examples.no_str x
                                      (map strip (split "," raw))))
                 [VStr "great gift for my girl, she takes it to the gym"; VNaN]).
Proof.
  apply (category_columns_independent Examples.no_str Samples.two_reviews
           [VNum 1; VNum 2]
           [VStr "great gift for my girl, she takes it to the gym"; VNaN]
           [VStr "positive"; VStr "negative"] Samples.two_categories);
    try reflexivity.
  - discriminate.
  - repeat constructor; simpl; intuition discriminate.
Defined.


(** A keyword string that ends in a comma. *)
Lemma blank_piece_matches_everything_witness :
  match_keywords Examples.no_str (VStr "great gift for my dog")
    (map strip (split "," "kids,girl,")) = true.
Proof.
  apply (blank_piece_matches_everything Examples.no_str "kids,girl," EmptyString
           (VStr "great gift for my dog")).
  - simpl. tauto.
  - reflexivity.
  - reflexivity.
Defined.

End EngineFacts.

(* ================================================================== *)
(** ** Counting review types *)
(* ================================================================== *)

Module CountFacts.
Import Utils Reports FrameFacts KeysFacts NumFacts.

Lemma same_key_trans (a b c : value) :
  same_key a b = true -> same_key b c = true -> same_key a c = true.
Proof. rewrite !same_key_eqv. apply TrendFacts.key_eqv_trans. Qed.

Lemma same_key_comm (a b : value) : same_key a b = same_key b a.
Proof.
  destruct (same_key a b) eqn:E1, (same_key b a) eqn:E2; try reflexivity.
  - apply same_key_sym in E1. congruence.
  - apply same_key_sym in E2. congruence.
Qed.




Lemma In_distinct (k : value) (l : Series) : In k (distinct l) -> In k l.
Proof.
  induction l as [|v l IH]; simpl; [intros []|].
  intros [<- | H]; [left; reflexivity|]. right. apply IH.
  apply filter_In in H as [H _]. exact H.
Qed.


Lemma count_key_cons (k v : value) (l : Series) :
  count_key k (v :: l)
  = ((if same_key k v then 1 else 0) + count_key k l)%Z.
Proof. unfold count_key. simpl. destruct (same_key k v); simpl; lia. Qed.


Lemma count_key_eqv (k k' : value) (l : Series) :
  same_key k k' = true -> count_key k l = count_key k' l.
Proof.
  intros H. unfold count_key. f_equal. f_equal. apply filter_ext.
  intros x. destruct (same_key k x) eqn:E1, (same_key k' x) eqn:E2; try reflexivity.
  - rewrite (same_key_trans k' k x (same_key_sym _ _ H) E1) in E2. discriminate.
  - rewrite (same_key_trans k k' x H E2) in E1. discriminate.
Qed.




Lemma notna_same_key (k x : value) :
  notna k = true -> same_key k x = true -> notna x = true.
Proof.
  intros Hk Hx. apply same_key_eqv in Hx. destruct k, x; simpl in *; try contradiction;
    try discriminate; reflexivity.
Qed.

Lemma In_value_counts (s : Series) (k : value) (c : Z) :
  In (k, c) (value_counts s) ->
  In k s /\ isna k = false /\ c = count_key k s /\ (1 <= c)%Z.
Proof.
  unfold value_counts. intros H. apply (proj1 (TrendFacts.In_sorted_desc _ _)) in H.
  apply in_map_iff in H as [k' [[= -> <-] Hk]]. apply In_distinct in Hk.
  apply filter_In in Hk as [Hin Hna]. unfold notna in Hna. apply negb_true_iff in Hna.
  split; [exact Hin|]. split; [exact Hna|]. split; [reflexivity|].
  apply (TrendFacts.count_key_pos k k s Hin). apply key_eqv_refl.
Qed.


Lemma repeated_insert_desc (x : value * Z) (l : list (value * Z)) :
  has_repeated_label (insert_desc x l)
  = existsb (fun kc => same_key (fst x) (fst kc)) l || has_repeated_label l.
Proof.
  destruct x as [kx cx]. induction l as [|[k c] l IH]; [reflexivity|]. simpl.
  destruct (c <=? cx)%Z; simpl; [reflexivity|].
  rewrite IH. simpl.
  assert (Hex : existsb (fun kc => same_key k (fst kc)) (insert_desc (kx, cx) l)
                = same_key k kx || existsb (fun kc => same_key k (fst kc)) l).
  { clear IH. induction l as [|[k' c'] l IHl]; simpl.
    - rewrite orb_false_r. reflexivity.
    - destruct (c' <=? cx)%Z; simpl; [reflexivity|]. rewrite IHl.
      destruct (same_key k k'), (same_key k kx); reflexivity. }
  rewrite Hex, (same_key_comm k kx).
  destruct (same_key kx k), (existsb (fun kc => same_key k (fst kc)) l),
    (existsb (fun kc => same_key kx (fst kc)) l), (has_repeated_label l); reflexivity.
Qed.

Lemma existsb_filter_false (v : value) (l : Series) :
  existsb (same_key v) (List.filter (fun x => negb (same_key v x)) l) = false.
Proof.
  induction l as [|x l IH]; [reflexivity|]. simpl.
  destruct (same_key v x) eqn:E; simpl; [exact IH | rewrite E; exact IH].
Qed.

Lemma existsb_filter_le (p q : value -> bool) (l : Series) :
  existsb p l = false -> existsb p (List.filter q l) = false.
Proof.
  induction l as [|x l IH]; [reflexivity|]. simpl. intros H.
  apply orb_false_iff in H as [Hx Hl]. destruct (q x); simpl; [rewrite Hx|]; apply IH; exact Hl.
Qed.

Lemma repeated_key_filter (q : value -> bool) (l : Series) :
  repeated_key l = false -> repeated_key (List.filter q l) = false.
Proof.
  induction l as [|x l IH]; [reflexivity|]. simpl. intros H.
  apply orb_false_iff in H as [Hx Hl]. destruct (q x); simpl.
  - rewrite (existsb_filter_le _ q l Hx). apply IH. exact Hl.
  - apply IH. exact Hl.
Qed.

Lemma distinct_no_repeat (l : Series) : repeated_key (distinct l) = false.
Proof.
  induction l as [|v l IH]; [reflexivity|]. simpl.
  rewrite existsb_filter_false. simpl. apply repeated_key_filter. exact IH.
Qed.

Lemma repeated_label_map (f : value -> Z) (l : Series) :
  has_repeated_label (map (fun k => (k, f k)) l) = repeated_key l.
Proof.
  induction l as [|k l IH]; [reflexivity|]. simpl. rewrite IH. f_equal.
  clear IH. induction l as [|x l IHl]; [reflexivity|]. simpl. rewrite IHl. reflexivity.
Qed.

Lemma existsb_sorted_desc (p : value * Z -> bool) (l : list (value * Z)) :
  existsb p (fold_right insert_desc [] l) = existsb p l.
Proof.
  induction l as [|x l IH]; [reflexivity|]. simpl. rewrite <- IH.
  generalize (fold_right insert_desc [] l). intros m.
  induction m as [|y m IHm]; [reflexivity|]. simpl.
  destruct (snd y <=? snd x)%Z; simpl; [reflexivity|]. rewrite IHm.
  destruct (p x), (p y); reflexivity.
Qed.

Lemma repeated_sorted_desc (l : list (value * Z)) :
  has_repeated_label (fold_right insert_desc [] l) = has_repeated_label l.
Proof.
  induction l as [|[k c] l IH]; [reflexivity|]. simpl.
  rewrite repeated_insert_desc, IH. cbn [fst]. rewrite existsb_sorted_desc. reflexivity.
Qed.

(** No value is listed twice by [value_counts]. *)
Lemma value_counts_no_repeat (s : Series) : has_repeated_label (value_counts s) = false.
Proof.
  unfold value_counts. rewrite repeated_sorted_desc, repeated_label_map.
  apply distinct_no_repeat.
Qed.






Lemma lookup_count_found (s : Series) (label : value) (counts : list (value * Z)) :
  (forall k c, In (k, c) counts -> c = count_key k s) ->
  existsb (fun kc => same_key (fst kc) label) counts = true ->
  lookup_count label counts = count_key label s.
Proof.
  induction counts as [|[k c] counts IH]; [discriminate|]. intros Hall Hex. simpl in *.
  destruct (same_key k label) eqn:E.
  - rewrite (Hall k c (or_introl eq_refl)). apply count_key_eqv. exact E.
  - apply IH; [|exact Hex]. intros k' c' Hin. apply Hall. right. exact Hin.
Qed.

Lemma lookup_count_absent (label : value) (counts : list (value * Z)) :
  existsb (fun kc => same_key (fst kc) label) counts = false ->
  lookup_count label counts = 0%Z.
Proof.
  induction counts as [|[k c] counts IH]; [reflexivity|]. simpl.
  destruct (same_key k label); [discriminate | exact IH].
Qed.

(** Looking a present label up in [value_counts] gives the number of its
    occurrences, 0 when it does not occur. *)
Lemma lookup_value_counts (s : Series) (label : value) :
  isna label = false ->
  lookup_count label (value_counts s) = count_key label s.
Proof.
  intros Hna.
  destruct (existsb (fun kc => same_key (fst kc) label) (value_counts s)) eqn:E.
  - apply lookup_count_found; [|exact E].
    intros k c Hin. apply In_value_counts in Hin. tauto.
  - rewrite (lookup_count_absent _ _ E). symmetry. unfold count_key.
    destruct (List.filter (same_key label) s) as [|t rest] eqn:Ef; [reflexivity|].
    exfalso. assert (Ht : In t (List.filter (same_key label) s)) by (rewrite Ef; left; reflexivity).
    apply filter_In in Ht as [Ht Hsame].
    assert (Htna : isna t = false).
    { pose proof (notna_same_key label t) as Hn. unfold notna in Hn.
      rewrite Hna in Hn. specialize (Hn eq_refl Hsame).
      apply negb_true_iff in Hn. exact Hn. }
    destruct (TrendFacts.value_counts_covers s t Ht Htna) as [k [Hin [Hk _]]].
    assert (Hex : existsb (fun kc => same_key (fst kc) label) (value_counts s) = true).
    { apply existsb_exists. exists (k, count_key k s). split; [exact Hin|]. cbn [fst].
      apply (same_key_trans k t label); [apply same_key_eqv; exact Hk|].
      apply same_key_sym. exact Hsame. }
    congruence.
Qed.



(** X8.  The pie chart drawn from the summary shows the three types
    positive, neutral, negative in this order, each with the number of
    rows of that type in the table, 0 for a type that does not occur;
    rows of any other type (unknown) or without a type are not shown. *)
Theorem pie_chart_counts :
  forall (df : DataFrame) (types : Series),
    getitem df "Review Type" = Ok types ->
    exists stats counts percentages,
      calculate_review_stats df = Ok (stats, counts, percentages)
      /\ create_pie_chart counts
         = Ok [("positive", count_key (VStr "positive") types);
               ("neutral", count_key (VStr "neutral") types);
               ("negative", count_key (VStr "negative") types)].
Proof.
  intros df types Htypes. unfold calculate_review_stats. rewrite Htypes. cbn [bind].
  eexists _, _, _. split; [reflexivity|]. unfold create_pie_chart.
  rewrite value_counts_no_repeat. unfold pie_labels. cbn [map].
  rewrite !lookup_value_counts by reflexivity. reflexivity.
Qed.

(** A table whose rows are positive, unknown and without a type. *)
Lemma pie_chart_counts_witness :
  exists stats counts percentages,
    calculate_review_stats Samples.odd_types = Ok (stats, counts, percentages)
    /\ create_pie_chart counts
       = Ok [("positive", count_key (VStr "positive")
                            [VStr "positive"; VStr "unknown"; VNaN]);
             ("neutral", count_key (VStr "neutral")
                           [VStr "positive"; VStr "unknown"; VNaN]);
             ("negative", count_key (VStr "negative")
                            [VStr "positive"; VStr "unknown"; VNaN])].
Proof.
  apply (pie_chart_counts Samples.odd_types [VStr "positive"; VStr "unknown"; VNaN]).
  reflexivity.
Defined.

End CountFacts.

(* ================================================================== *)
(** ** The analyses of one page run, one after the other *)
(* ================================================================== *)

Module PageRunFacts.
Import Utils OverallTrend FrameFacts KeysFacts.

Lemma setitem_twice (df : DataFrame) (col : string) (s t : Series) :
  setitem (setitem df col s) col t = setitem df col t.
Proof.
  induction df as [|[name s0] df IH]; simpl.
  - rewrite String.eqb_refl. reflexivity.
  - destruct (String.eqb name col) eqn:E; simpl; rewrite E; [reflexivity|].
    rewrite IH. reflexivity.
Qed.

Lemma getitem_absent (df : DataFrame) (col : string) :
  has_column df col = false -> getitem df col = Raise (KeyError col).
Proof.
  unfold has_column, columns. induction df as [|[name s0] df IH]; simpl;
    [reflexivity|].
  rewrite String.eqb_sym. destruct (String.eqb name col); [discriminate | exact IH].
Qed.

Lemma group_column_setitem (table : DataFrame) (col : string) (s : Series) :
  col <> "Asin" -> col <> "Model" ->
  group_column (setitem table col s) = group_column table.
Proof.
  intros Ha Hm. unfold group_column.
  rewrite (getitem_setitem_ne table col "Asin" s Ha).
  rewrite (getitem_setitem_ne table col "Model" s Hm). reflexivity.
Qed.

Lemma month_column_setitem (table : DataFrame) (col : string) (s : Series) :
  col <> "Date" -> month_column (setitem table col s) = month_column table.
Proof.
  intros Hd. unfold month_column.
  rewrite (getitem_setitem_ne table col "Date" s Hd). reflexivity.
Qed.

(** An analysis reads its key, [Rating] and [Review Type] only. *)
Lemma analyze_key_setitem (table : DataFrame) (col key : string) (s : Series) :
  col <> key -> col <> "Rating" -> col <> "Review Type" ->
  analyze_key (setitem table col s) key = analyze_key table key.
Proof.
  intros Hk Hr Ht. unfold analyze_key, group_stats_by, rating_dist_pct_by.
  rewrite (getitem_setitem_ne table col key s Hk).
  rewrite (getitem_setitem_ne table col "Rating" s Hr).
  rewrite (getitem_setitem_ne table col "Review Type" s Ht). reflexivity.
Qed.

(** X9.  The composite-key analysis may be asked for again on the same
    table (the statistics tab and the heat-map tab both do): the second
    call returns what the first returned and leaves the caller's table as
    the first call left it, whatever list of columns it is given. *)
Theorem composite_analysis_repeatable :
  forall (df : positive) (cols cols' : list string) (h : gmap positive DataFrame),
    analyze_by_group df (ByList cols') (snd (analyze_by_group df (ByList cols) h))
    = analyze_by_group df (ByList cols) h.
Proof.
  intros df cols cols' h. unfold analyze_by_group at 2 3.
  destruct (h !! df) as [table|] eqn:Hdf; cbn [snd].
  - destruct (group_column table) as [group|e] eqn:Hg; cbn [snd].
    + unfold analyze_by_group. rewrite lookup_insert_eq.
      rewrite group_column_setitem by discriminate. rewrite Hg.
      rewrite setitem_twice, insert_insert_eq. reflexivity.
    + unfold analyze_by_group. rewrite Hdf, Hg. reflexivity.
  - unfold analyze_by_group. rewrite Hdf. reflexivity.
Qed.

(** X10.  The columns the other analyses leave in the caller's table do
    not change the analysis by a single column (which groups by
    [Asin]): after the composite-key analysis (column [Group]) and a
    trend chart (column [Month]) it returns what it returns on the table
    as uploaded, and it leaves the table as it finds it. *)
Theorem single_key_analysis_unaffected :
  forall (df : positive) (cols : list string) (group_by key : string)
         (h : gmap positive DataFrame),
    let h1 := snd (analyze_by_group df (ByList cols) h) in
    let h2 := snd (create_rating_trend_chart df group_by h1) in
    fst (analyze_by_group df (ByName key) h2)
    = fst (analyze_by_group df (ByName key) h)
    /\ snd (analyze_by_group df (ByName key) h2) = h2.
Proof.
  intros df cols group_by key h h1 h2. split.
  - subst h1 h2. unfold analyze_by_group at 2.
    destruct (h !! df) as [table|] eqn:Hdf; cbn [snd].
    + destruct (group_column table) as [group|e] eqn:Hg; cbn [snd].
      * unfold create_rating_trend_chart. rewrite lookup_insert_eq.
        destruct (month_column (setitem table "Group" group)) as [months|e];
          cbn [snd]; unfold analyze_by_group.
        -- rewrite lookup_insert_eq, Hdf. cbn [fst].
           rewrite !analyze_key_setitem by discriminate. reflexivity.
        -- rewrite lookup_insert_eq, Hdf. cbn [fst].
           rewrite !analyze_key_setitem by discriminate. reflexivity.
      * unfold create_rating_trend_chart. rewrite Hdf.
        destruct (month_column table) as [months|e']; cbn [snd];
          unfold analyze_by_group.
        -- rewrite lookup_insert_eq, Hdf. cbn [fst].
           rewrite !analyze_key_setitem by discriminate. reflexivity.
        -- rewrite Hdf. reflexivity.
    + unfold create_rating_trend_chart. rewrite Hdf. cbn [snd].
      unfold analyze_by_group. rewrite Hdf. reflexivity.
  - unfold analyze_by_group. destruct (h2 !! df); reflexivity.
Qed.

(** X11.  A trend chart grouped by a column the table lacks fails with
    [KeyError] on that column, and by then the month column has been
    written: the caller's table is left with [Month] although no chart
    was produced. *)
Theorem trend_failure_leaves_month :
  forall (df : positive) (group_by : string) (h : gmap positive DataFrame)
         (table : DataFrame) (months : Series),
    h !! df = Some table ->
    month_column table = Ok months ->
    has_column table group_by = false ->
    group_by <> "Month" ->
    create_rating_trend_chart df group_by h
    = (Raise (KeyError group_by), <[df := setitem table "Month" months]> h)
    /\ getitem (setitem table "Month" months) "Month" = Ok months.
Proof.
  intros df group_by h table months Hdf Hm Habs Hne.
  split; [|apply getitem_setitem_eq].
  unfold create_rating_trend_chart. rewrite Hdf, Hm. unfold trend_data.
  rewrite getitem_setitem_eq. cbn [bind].
  rewrite (getitem_setitem_ne table "Month" group_by months) by congruence.
  rewrite (getitem_absent table group_by Habs). reflexivity.
Qed.

(** The three reviews of the scenario, charted by a column not there. *)
Lemma trend_failure_leaves_month_witness :
  create_rating_trend_chart 1%positive "Brand"
    (Examples.one_table Examples.three_reviews)
  = (Raise (KeyError "Brand"),
     <[1%positive := setitem Examples.three_reviews "Month"
                       (map month_label Samples.three_dates)]>
       (Examples.one_table Examples.three_reviews))
  /\ getitem (setitem Examples.three_reviews "Month"
                (map month_label Samples.three_dates)) "Month"
     = Ok (map month_label Samples.three_dates).
Proof.
  apply (trend_failure_leaves_month 1%positive "Brand"
           (Examples.one_table Examples.three_reviews) Examples.three_reviews
           (map month_label Samples.three_dates)).
  - reflexivity.
  - reflexivity.
  - reflexivity.
  - discriminate.
Defined.

End PageRunFacts.

(* ================================================================== *)
(** ** The overall trend of the statistics page *)
(* ================================================================== *)

Module OverallTrendFacts.
Import Utils OverallTrend FrameFacts KeysFacts.

Lemma numbers_ok_iff (s : Series) :
  (exists xs, numbers s = Ok xs) <-> forallb numeric_cell s = true.
Proof.
  induction s as [|v s IH]; simpl.
  - split; [reflexivity | intros _; exists []; reflexivity].
  - destruct v as [|t|q|y m d|b]; simpl.
    + exact IH.
    + split; [intros [xs H]; discriminate | discriminate].
    + rewrite <- IH. split.
      * intros [xs H]. destruct (numbers s) as [rest|e]; [|discriminate].
        exists rest. reflexivity.
      * intros [rest ->]. eexists. reflexivity.
    + split; [intros [xs H]; discriminate | discriminate].
    + rewrite <- IH. split.
      * intros [xs H]. destruct (numbers s) as [rest|e]; [|discriminate].
        exists rest. reflexivity.
      * intros [rest ->]. eexists. reflexivity.
Qed.

Lemma numbers_rows_of (keys rating : Series) (g : value) (xs : list Q) :
  numbers rating = Ok xs -> exists ys, numbers (rows_of keys g rating) = Ok ys.
Proof.
  intros H. apply numbers_ok_iff. apply forallb_forall. intros x Hx.
  apply In_rows_of in Hx as [k [Hin _]]. apply in_combine_r in Hin.
  assert (Hall : forallb numeric_cell rating = true).
  { apply numbers_ok_iff. exists xs. exact H. }
  rewrite forallb_forall in Hall. apply Hall. exact Hin.
Qed.

Lemma mean_months_spec (months rating : Series) (keys : list value) (xs : list Q) :
  numbers rating = Ok xs ->
  exists data,
    mean_months months rating keys = Ok data
    /\ map fst data = keys
    /\ forall m p, In (m, p) data ->
         exists ys, numbers (rows_of months m rating) = Ok ys /\ p = mean_of ys.
Proof.
  intros Hxs. induction keys as [|k keys [data [IH [Hk Hall]]]]; simpl.
  - exists []. split; [reflexivity|]. split; [reflexivity | intros m p []].
  - destruct (numbers_rows_of months rating k xs Hxs) as [ys Hys].
    rewrite Hys, IH. cbn [bind]. eexists. split; [reflexivity|].
    split; [simpl; rewrite Hk; reflexivity|].
    intros m p [[= <- <-] | Hin]; [exists ys; auto | apply Hall; exact Hin].
Qed.





End OverallTrendFacts.

(* ================================================================== *)
(** ** From the processing to the pages *)
(* ================================================================== *)

Module PipelineFacts.
Import Utils OverallTrend FrameFacts KeysFacts ProcessDataFacts.

Section Pipeline.

Variable parse_float : string -> option pyfloat.
Variable parse_number : string -> option Q.
Variable parse_datetime : value -> option (Z * Z * Z).
Variable str_of_scalar : value -> string.

Lemma coerced_dates_are_datetime (date : Series) :
  is_datetime (map (to_datetime_coerce parse_datetime) date) = true.
Proof.
  unfold is_datetime. induction date as [|v date IH]; simpl; [reflexivity|].
  rewrite IH. destruct v as [|s|q|y m d|b]; simpl; try reflexivity;
    match goal with
    | |- context [parse_datetime ?x] =>
        destruct (parse_datetime x) as [[[y' m'] d']|]; reflexivity
    end.
Qed.

Lemma coerced_ratings_are_numbers (rating : Series) :
  exists xs, numbers (map (to_numeric_coerce parse_number) rating) = Ok xs.
Proof.
  apply OverallTrendFacts.numbers_ok_iff.
  induction rating as [|v rating IH]; simpl; [reflexivity|].
  rewrite IH. destruct v as [|s|q|y m d|b]; simpl; try reflexivity.
  destruct (parse_number s); reflexivity.
Qed.

Lemma to_numeric_coerce_idempotent (v : value) :
  to_numeric_coerce parse_number (to_numeric_coerce parse_number v)
  = to_numeric_coerce parse_number v.
Proof.
  destruct v as [|s|q|y m d|b]; simpl; try reflexivity.
  destruct (parse_number s); reflexivity.
Qed.

Lemma to_datetime_coerce_idempotent (v : value) :
  to_datetime_coerce parse_datetime (to_datetime_coerce parse_datetime v)
  = to_datetime_coerce parse_datetime v.
Proof.
  destruct v as [|s|q|y m d|b]; simpl; try reflexivity;
    match goal with
    | |- context [parse_datetime ?x] =>
        destruct (parse_datetime x) as [[[y' m'] d']|]; reflexivity
    end.
Qed.

Lemma astype_str_strip_idempotent (v : value) :
  astype_str_strip str_of_scalar (astype_str_strip str_of_scalar v)
  = astype_str_strip str_of_scalar v.
Proof.
  destruct v as [|s|q|y m d|b]; simpl; try reflexivity;
    rewrite ProcessedTableFacts.strip_idempotent; reflexivity.
Qed.

Lemma map_idempotent {A : Type} (f : A -> A) (l : list A) :
  (forall x, f (f x) = f x) -> map f (map f l) = map f l.
Proof.
  intros H. rewrite map_map. apply map_ext. exact H.
Qed.

(** The types of a processed table are the three labels. *)
Lemma processed_types_are_labels (rating types : Series) :
  apply_review_type parse_float (map (to_numeric_coerce parse_number) rating)
  = Ok types ->
  forall t, In t types ->
    t = VStr "positive" \/ t = VStr "neutral" \/ t = VStr "negative".
Proof.
  intros Ht.
  pose proof (ProcessedTableFacts.apply_review_type_cells parse_float
                (map (to_numeric_coerce parse_number) rating) types) as Hcells.
  assert (Hs : forall r, In r (map (to_numeric_coerce parse_number) rating) ->
                 r = VNaN \/ exists q, r = VNum q).
  { intros r Hin. apply in_map_iff in Hin as [v [<- _]].
    apply ProcessedTableFacts.to_numeric_coerce_cases. }
  specialize (Hcells Hs Ht). clear Hs Ht.
  induction Hcells as [|r t s types' Hrt _ IH]; [intros t []|].
  intros t' [<- | Hin]; [|apply IH; exact Hin].
  destruct Hrt as [[_ ->] | [q [_ [[_ ->] | [[_ ->] | [_ [_ ->]]]]]]]; auto.
Qed.

Lemma three_labels_total (types : Series) :
  (forall t, In t types ->
     t = VStr "positive" \/ t = VStr "neutral" \/ t = VStr "negative") ->
  (count_key (VStr "positive") types + count_key (VStr "neutral") types
   + count_key (VStr "negative") types)%Z
  = Z.of_nat (List.length types).
Proof.
  induction types as [|t types IH]; [reflexivity|]. intros H.
  rewrite !CountFacts.count_key_cons.
  assert (IH' := IH (fun t' Hin => H t' (or_intror Hin))).
  change (List.length (t :: types)) with (S (List.length types)).
  destruct (H t (or_introl eq_refl)) as [-> | [-> | ->]];
    repeat match goal with
           | |- context [same_key (VStr ?a) (VStr ?b)] =>
               let r := eval vm_compute in (same_key (VStr a) (VStr b)) in
               change (same_key (VStr a) (VStr b)) with r
           end;
    lia.
Qed.

(** A table the processing returns, from the run that returned it. *)
Lemma process_data_inversion (df df' : DataFrame) :
  process_data parse_float parse_number parse_datetime str_of_scalar df
  = Ok (Processed df') ->
  exists asin title content model rating date types,
    getitem df "Rating" = Ok rating /\ getitem df "Date" = Ok date
    /\ apply_review_type parse_float (map (to_numeric_coerce parse_number) rating)
       = Ok types
    /\ df' = [("ID", id_column (List.length asin));
              ("Asin", asin);
              ("Title", map (astype_str_strip str_of_scalar) title);
              ("Content", map (astype_str_strip str_of_scalar) content);
              ("Model", map (astype_str_strip str_of_scalar) model);
              ("Rating", map (to_numeric_coerce parse_number) rating);
              ("Date", map (to_datetime_coerce parse_datetime) date);
              ("Review Type", types)].
Proof.
  intros Hrun.
  assert (Hall : forall c, In c required_columns -> has_column df c = true).
  { apply first_missing_none. unfold process_data in Hrun.
    destruct (first_missing df required_columns); [discriminate | reflexivity]. }
  assert (Hget : forall c, In c required_columns -> exists s, getitem df c = Ok s).
  { intros c Hc. apply has_column_getitem. apply Hall. exact Hc. }
  destruct (Hget "Asin") as [asin H1]; [simpl; tauto|].
  destruct (Hget "Title") as [title H2]; [simpl; tauto|].
  destruct (Hget "Content") as [content H3]; [simpl; tauto|].
  destruct (Hget "Model") as [model H4]; [simpl; tauto|].
  destruct (Hget "Rating") as [rating H5]; [simpl; tauto|].
  destruct (Hget "Date") as [date H6]; [simpl; tauto|].
  destruct (ProcessedTableFacts.process_data_closed_form parse_float parse_number
              parse_datetime str_of_scalar df asin title content model rating date
              H1 H2 H3 H4 H5 H6) as [types [Ht Hrun']].
  rewrite Hrun' in Hrun. injection Hrun as <-.
  exists asin, title, content, model, rating, date, types.
  split; [exact H5|]. split; [exact H6|]. split; [exact Ht|]. reflexivity.
Qed.

(** X13.  A table the processing returns is accepted by the column check
    of the statistics page and by that of the keyword page.  Its [Date]
    column has the type the month computation needs and its [Rating]
    column can be averaged, so the review-type summary and the overall
    trend chart are produced on it. *)
Theorem processed_table_is_accepted :
  forall (df df' : DataFrame),
    process_data parse_float parse_number parse_datetime str_of_scalar df
    = Ok (Processed df') ->
    StatisticsPage.validate df' = None
    /\ KeywordMatch.validate df' = None
    /\ (exists months, month_column df' = Ok months)
    /\ (exists summary, calculate_review_stats df' = Ok summary)
    /\ forall (ref : positive) (h : gmap positive DataFrame),
         h !! ref = Some df' ->
         exists data, fst (create_overall_trend_chart ref h) = Ok data.
Proof.
  intros df df' Hrun.
  destruct (process_data_inversion df df' Hrun)
    as [asin [title [content [model [rating [date [types [_ [_ [_ ->]]]]]]]]]].
  split; [reflexivity|]. split; [reflexivity|].
  assert (Hm : month_column
                 [("ID", id_column (List.length asin)); ("Asin", asin);
                  ("Title", map (astype_str_strip str_of_scalar) title);
                  ("Content", map (astype_str_strip str_of_scalar) content);
                  ("Model", map (astype_str_strip str_of_scalar) model);
                  ("Rating", map (to_numeric_coerce parse_number) rating);
                  ("Date", map (to_datetime_coerce parse_datetime) date);
                  ("Review Type", types)]
               = Ok (map month_label (map (to_datetime_coerce parse_datetime) date))).
  { unfold month_column. cbn [getitem String.eqb Ascii.eqb Bool.eqb bind].
    rewrite coerced_dates_are_datetime. reflexivity. }
  split; [eexists; exact Hm|]. split; [eexists; reflexivity|].
  intros ref h Href. unfold create_overall_trend_chart. rewrite Href, Hm.
  cbn [fst]. unfold overall_trend_data. rewrite getitem_setitem_eq. cbn [bind].
  rewrite (getitem_setitem_ne _ "Month" "Rating") by discriminate.
  cbn [getitem String.eqb Ascii.eqb Bool.eqb bind].
  destruct (coerced_ratings_are_numbers rating) as [xs Hxs].
  destruct (OverallTrendFacts.mean_months_spec
              (map month_label (map (to_datetime_coerce parse_datetime) date))
              (map (to_numeric_coerce parse_number) rating)
              (sort_uniq value_compare
                 (List.filter notna
                    (map month_label (map (to_datetime_coerce parse_datetime) date))))
              xs Hxs) as [data [Hdata _]].
  exists data. exact Hdata.
Qed.

(** X14.  Processing a processed table changes nothing: the table the
    processing returns is returned as it is when it is processed
    again. *)
Theorem processing_is_idempotent :
  forall (df df' : DataFrame),
    process_data parse_float parse_number parse_datetime str_of_scalar df
    = Ok (Processed df') ->
    process_data parse_float parse_number parse_datetime str_of_scalar df'
    = Ok (Processed df').
Proof.
  intros df df' Hrun.
  destruct (process_data_inversion df df' Hrun)
    as [asin [title [content [model [rating [date [types [_ [_ [Ht ->]]]]]]]]]].
  destruct (ProcessedTableFacts.process_data_closed_form parse_float parse_number
              parse_datetime str_of_scalar
              [("ID", id_column (List.length asin)); ("Asin", asin);
               ("Title", map (astype_str_strip str_of_scalar) title);
               ("Content", map (astype_str_strip str_of_scalar) content);
               ("Model", map (astype_str_strip str_of_scalar) model);
               ("Rating", map (to_numeric_coerce parse_number) rating);
               ("Date", map (to_datetime_coerce parse_datetime) date);
               ("Review Type", types)]
              asin
              (map (astype_str_strip str_of_scalar) title)
              (map (astype_str_strip str_of_scalar) content)
              (map (astype_str_strip str_of_scalar) model)
              (map (to_numeric_coerce parse_number) rating)
              (map (to_datetime_coerce parse_datetime) date)
              eq_refl eq_refl eq_refl eq_refl eq_refl eq_refl)
    as [types' [Ht' Hrun']].
  rewrite Hrun'.
  rewrite (map_idempotent _ rating to_numeric_coerce_idempotent) in *.
  rewrite (map_idempotent _ date to_datetime_coerce_idempotent).
  rewrite !(map_idempotent _ _ astype_str_strip_idempotent).
  rewrite Ht in Ht'. injection Ht' as <-. reflexivity.
Qed.

(** X15.  On a table the processing returns, the pie chart leaves no row
    out: its three slices add up to the number of rows of the table that
    carry a type, which is every row. *)
Theorem pie_covers_processed_rows :
  forall (df df' : DataFrame),
    process_data parse_float parse_number parse_datetime str_of_scalar df
    = Ok (Processed df') ->
    exists types stats counts percentages slices,
      getitem df' "Review Type" = Ok types
      /\ calculate_review_stats df' = Ok (stats, counts, percentages)
      /\ Reports.create_pie_chart counts = Ok slices
      /\ map fst slices = ["positive"; "neutral"; "negative"]
      /\ Zsum (map snd slices) = Z.of_nat (List.length types)
      /\ forall t, In t types -> isna t = false.
Proof.
  intros df df' Hrun.
  destruct (process_data_inversion df df' Hrun)
    as [asin [title [content [model [rating [date [types [_ [_ [Ht ->]]]]]]]]]].
  pose proof (processed_types_are_labels rating types Ht) as Hlabels.
  exists types. unfold calculate_review_stats.
  cbn [getitem String.eqb Ascii.eqb Bool.eqb bind].
  eexists _, _, _, _. split; [reflexivity|]. split; [reflexivity|].
  unfold Reports.create_pie_chart. rewrite CountFacts.value_counts_no_repeat.
  split; [reflexivity|]. split; [reflexivity|]. split.
  - unfold Reports.pie_labels. cbn [map snd Zsum fold_right].
    rewrite !CountFacts.lookup_value_counts by reflexivity.
    rewrite <- (three_labels_total types Hlabels). lia.
  - intros t Hin. destruct (Hlabels t Hin) as [-> | [-> | ->]]; reflexivity.
Qed.

End Pipeline.

(** The raw upload of three rows and what the processing makes of it. *)
Lemma processed_table_is_accepted_witness :
  StatisticsPage.validate Samples.processed_upload = None
  /\ KeywordMatch.validate Samples.processed_upload = None
  /\ (exists months, month_column Samples.processed_upload = Ok months)
  /\ (exists summary, calculate_review_stats Samples.processed_upload = Ok summary)
  /\ forall (ref : positive) (h : gmap positive DataFrame),
       h !! ref = Some Samples.processed_upload ->
       exists data, fst (create_overall_trend_chart ref h) = Ok data.
Proof.
  apply (processed_table_is_accepted Examples.no_float Examples.no_number
           Examples.no_datetime Examples.no_str Samples.raw_upload
           Samples.processed_upload).
  reflexivity.
Defined.

Lemma processing_is_idempotent_witness :
  process_data Examples.no_float Examples.no_number Examples.no_datetime
    Examples.no_str Samples.processed_upload
  = Ok (Processed Samples.processed_upload).
Proof.
  apply (processing_is_idempotent Examples.no_float Examples.no_number
           Examples.no_datetime Examples.no_str Samples.raw_upload
           Samples.processed_upload).
  reflexivity.
Defined.

Lemma pie_covers_processed_rows_witness :
  exists types stats counts percentages slices,
    getitem Samples.processed_upload "Review Type" = Ok types
    /\ calculate_review_stats Samples.processed_upload
       = Ok (stats, counts, percentages)
    /\ Reports.create_pie_chart counts = Ok slices
    /\ map fst slices = ["positive"; "neutral"; "negative"]
    /\ Zsum (map snd slices) = Z.of_nat (List.length types)
    /\ forall t, In t types -> isna t = false.
Proof.
  apply (pie_covers_processed_rows Examples.no_float Examples.no_number
           Examples.no_datetime Examples.no_str Samples.raw_upload
           Samples.processed_upload).
  reflexivity.
Defined.

End PipelineFacts.

(* ================================================================== *)
(** ** The text export *)
(* ================================================================== *)

Module DownloadFacts.
Import Utils Reports.

Lemma append_cons (a : ascii) (s t : string) :
  String a s +:+ t = String a (s +:+ t).
Proof. reflexivity. Qed.

Lemma append_nil (t : string) : EmptyString +:+ t = t.
Proof. reflexivity. Qed.

Lemma append_assoc_r (a b c : string) : (a +:+ b) +:+ c = a +:+ (b +:+ c).
Proof.
  induction a as [|x a IH]; [reflexivity|].
  rewrite !append_cons, IH. reflexivity.
Qed.

Lemma split_free (c : ascii) (s : string) :
  free_of c s = true -> split c s = [s].
Proof.
  induction s as [|a s IH]; simpl; [reflexivity|].
  intros H. apply andb_true_iff in H as [Ha Hs]. apply negb_true_iff in Ha.
  rewrite Ha, (IH Hs). reflexivity.
Qed.

Lemma split_app_sep (c : ascii) (x rest : string) :
  free_of c x = true -> split c (x +:+ String c rest) = x :: split c rest.
Proof.
  induction x as [|a x IH]; intros H.
  - rewrite append_nil. simpl. rewrite Ascii.eqb_refl. reflexivity.
  - simpl in H. apply andb_true_iff in H as [Ha Hx]. apply negb_true_iff in Ha.
    rewrite append_cons. simpl. rewrite Ha, (IH Hx). reflexivity.
Qed.

Lemma free_of_app (c : ascii) (s t : string) :
  free_of c (s +:+ t) = free_of c s && free_of c t.
Proof.
  induction s as [|a s IH]; [reflexivity|].
  rewrite append_cons. simpl. rewrite IH, andb_assoc. reflexivity.
Qed.

(** Fields without the separator are recovered from their line. *)
Lemma split_join (c : ascii) (fields : list string) :
  fields <> [] -> forallb (free_of c) fields = true ->
  split c (join (String c EmptyString) fields) = fields.
Proof.
  induction fields as [|x fields IH]; [congruence|]. intros _ H.
  simpl in H. apply andb_true_iff in H as [Hx Hrest].
  destruct fields as [|y fields].
  - simpl. apply split_free. exact Hx.
  - change (join (String c EmptyString) (x :: y :: fields))
      with (x +:+ String c EmptyString +:+ join (String c EmptyString) (y :: fields)).
    rewrite append_cons, append_nil, (split_app_sep c x _ Hx).
    rewrite IH; [reflexivity | discriminate | exact Hrest].
Qed.

Lemma free_of_join (c sep : ascii) (fields : list string) :
  Ascii.eqb sep c = false -> forallb (free_of c) fields = true ->
  free_of c (join (String sep EmptyString) fields) = true.
Proof.
  intros Hsep. induction fields as [|x fields IH]; [reflexivity|]. intros H.
  simpl in H. apply andb_true_iff in H as [Hx Hrest].
  destruct fields as [|y fields]; [exact Hx|].
  change (join (String sep EmptyString) (x :: y :: fields))
    with (x +:+ String sep EmptyString +:+ join (String sep EmptyString) (y :: fields)).
  rewrite append_cons, append_nil, free_of_app, Hx.
  change (free_of c (String sep (join (String sep EmptyString) (y :: fields))))
    with (negb (Ascii.eqb sep c)
          && free_of c (join (String sep EmptyString) (y :: fields))).
  rewrite Hsep, (IH Hrest). reflexivity.
Qed.

(** Lines without a line feed are recovered from the text; the text
    ends in a line feed, so an empty piece follows the last line. *)
Lemma split_lines (lines : list string) :
  forallb (free_of line_feed) lines = true ->
  split line_feed
    (concat_lines (map (fun l => l +:+ String line_feed EmptyString) lines))
  = lines ++ [EmptyString].
Proof.
  induction lines as [|l lines IH]; [reflexivity|]. intros H.
  simpl in H. apply andb_true_iff in H as [Hl Hrest].
  cbn [map concat_lines]. rewrite append_assoc_r, append_cons, append_nil.
  rewrite (split_app_sep line_feed l _ Hl), (IH Hrest). reflexivity.
Qed.

Lemma plain_fields_split (fields : list string) :
  forallb plain_field fields = true ->
  forallb (free_of tab) fields = true
  /\ forallb (free_of line_feed) fields = true.
Proof.
  induction fields as [|x fields IH]; [split; reflexivity|]. simpl.
  intros H. apply andb_true_iff in H as [Hx Hrest].
  apply andb_true_iff in Hx as [Ht Hl].
  destruct (IH Hrest) as [IHt IHl]. rewrite Ht, Hl, IHt, IHl. split; reflexivity.
Qed.

Section Download.

Variable str_of_scalar : value -> string.
Variable to_excel : DataFrame -> string.

(** The text export as the list of its lines. *)
Lemma get_download_data_lines (df : DataFrame) (file_format : string) :
  String.eqb file_format "excel" = false ->
  get_download_data str_of_scalar to_excel df file_format
  = concat_lines
      (map (fun l => l +:+ String line_feed EmptyString)
         (join (String tab EmptyString) (columns df)
          :: dashes 100
          :: map (fun row => join (String tab EmptyString)
                               (map (render_cell str_of_scalar) row))
               (iterrows df))).
Proof.
  intros Hfmt. unfold get_download_data. rewrite Hfmt.
  cbn [map concat_lines]. unfold text_line. rewrite map_map. reflexivity.
Qed.

(** X16.  The text export can be read back when the table has a column
    and no column name or written cell holds a tab or a line feed: cut
    at the line feeds, the text is the line of the column names, a line
    of 100 dashes, one line for each row in the order of the table, and
    an empty piece after the last line feed; cut at the tabs, the first
    line gives the column names and the line of a row gives its cells as
    written, a missing cell as the empty text. *)
Theorem text_export_reads_back :
  forall (df : DataFrame) (file_format : string),
    file_format <> "excel" ->
    columns df <> [] ->
    forallb plain_field (columns df) = true ->
    (forall row, In row (iterrows df) ->
       forallb plain_field (map (render_cell str_of_scalar) row) = true) ->
    exists header body,
      split line_feed (get_download_data str_of_scalar to_excel df file_format)
      = header :: dashes 100 :: body ++ [EmptyString]
      /\ split tab header = columns df
      /\ List.length body = len df
      /\ map (split tab) body
         = map (map (render_cell str_of_scalar)) (iterrows df)
      /\ render_cell str_of_scalar VNaN = EmptyString.
Proof.
  intros df file_format Hfmt Hcols Hnames Hcells.
  apply String.eqb_neq in Hfmt.
  destruct (plain_fields_split _ Hnames) as [Hnt Hnl].
  assert (Hrow : forall row, In row (iterrows df) ->
            map (render_cell str_of_scalar) row <> []).
  { intros row Hin. unfold iterrows in Hin. apply in_map_iff in Hin as [i [<- _]].
    unfold row_at. rewrite map_map. destruct df as [|col df]; [contradiction Hcols; reflexivity|].
    discriminate. }
  eexists _, _. split.
  - rewrite (get_download_data_lines df file_format Hfmt). rewrite split_lines.
    + reflexivity.
    + cbn [forallb]. rewrite (free_of_join line_feed tab _ eq_refl Hnl).
      cbn [andb]. apply andb_true_iff. split; [vm_compute; reflexivity|].
      apply forallb_forall. intros l Hl. apply in_map_iff in Hl as [row [<- Hin]].
      apply (free_of_join line_feed tab); [reflexivity|].
      apply (plain_fields_split _ (Hcells row Hin)).
  - split; [apply split_join; assumption|].
    split; [unfold iterrows; rewrite !length_map, length_seq; reflexivity|].
    split; [|reflexivity].
    rewrite map_map. apply map_ext_in. intros row Hin.
    apply split_join; [apply Hrow; exact Hin|].
    apply (plain_fields_split _ (Hcells row Hin)).
Qed.

End Download.

(** Two reviews, the second without content. *)
Lemma text_export_reads_back_witness :
  exists header body,
    split line_feed
      (get_download_data Examples.no_str (fun _ => EmptyString)
         Samples.two_reviews "txt")
    = header :: dashes 100 :: body ++ [EmptyString]
    /\ split tab header = columns Samples.two_reviews
    /\ List.length body = len Samples.two_reviews
    /\ map (split tab) body
       = map (map (render_cell Examples.no_str)) (iterrows Samples.two_reviews)
    /\ render_cell Examples.no_str VNaN = EmptyString.
Proof.
  apply (text_export_reads_back Examples.no_str (fun _ => EmptyString)
           Samples.two_reviews "txt").
  - discriminate.
  - discriminate.
  - reflexivity.
  - intros row [<- | [<- | []]]; reflexivity.
Defined.

End DownloadFacts.

(* ================================================================== *)
(** ** The category editor *)
(* ================================================================== *)

Module CategoryPageFacts.
Import CategoryStore CategoryPage.

Lemma dict_contains_In (d : dict) (k : string) :
  dict_contains d k = true <-> In k (map fst d).
Proof.
  unfold dict_contains. rewrite existsb_exists, in_map_iff. split.
  - intros [kv [Hin Hk]]. apply String.eqb_eq in Hk. exists kv. auto.
  - intros [kv [Hk Hin]]. exists kv. split; [exact Hin | apply String.eqb_eq; exact Hk].
Qed.

Lemma dict_contains_false (d : dict) (k : string) :
  dict_contains d k = false <-> ~ In k (map fst d).
Proof.
  rewrite <- dict_contains_In. destruct (dict_contains d k); split; congruence.
Qed.

Lemma keys_dict_set (d : dict) (k v : string) :
  map fst (dict_set d k v)
  = if dict_contains d k then map fst d else map fst d ++ [k].
Proof.
  unfold dict_contains. induction d as [|[k' v'] d IH]; simpl; [reflexivity|].
  destruct (String.eqb k' k); simpl; [reflexivity|].
  rewrite IH. destruct (existsb _ d); reflexivity.
Qed.

Lemma nodup_dict_set (d : dict) (k v : string) :
  List.NoDup (map fst d) -> List.NoDup (map fst (dict_set d k v)).
Proof.
  intros H. rewrite keys_dict_set. destruct (dict_contains d k) eqn:E; [exact H|].
  apply dict_contains_false in E.
  apply NoDup_app_remove_l with (l := []). simpl.
  apply (Permutation.Permutation_NoDup (l := k :: map fst d)).
  - apply Permutation.Permutation_cons_append.
  - constructor; assumption.
Qed.

Lemma dict_get_set_eq (d : dict) (k v : string) :
  dict_get (dict_set d k v) k = Ok v.
Proof.
  induction d as [|[k' v'] d IH]; simpl.
  - rewrite String.eqb_refl. reflexivity.
  - destruct (String.eqb k' k) eqn:E; simpl; rewrite E; [reflexivity | exact IH].
Qed.

Lemma dict_get_set_ne (d : dict) (k k' v : string) :
  k <> k' -> dict_get (dict_set d k v) k' = dict_get d k'.
Proof.
  intros Hne. induction d as [|[k0 v0] d IH]; simpl.
  - apply String.eqb_neq in Hne. rewrite Hne. reflexivity.
  - destruct (String.eqb k0 k) eqn:E; simpl.
    + apply String.eqb_eq in E. subst k0. apply String.eqb_neq in Hne.
      rewrite Hne. reflexivity.
    + rewrite IH. reflexivity.
Qed.

Lemma dict_set_twice (d : dict) (k v w : string) :
  dict_set (dict_set d k v) k w = dict_set d k w.
Proof.
  induction d as [|[k' v'] d IH]; simpl.
  - rewrite String.eqb_refl. reflexivity.
  - destruct (String.eqb k' k) eqn:E; simpl; rewrite E; [reflexivity|].
    rewrite IH. reflexivity.
Qed.

Lemma dict_del_absent (d : dict) (k : string) :
  dict_contains d k = false -> dict_del d k = Raise (KeyError k).
Proof.
  unfold dict_contains. induction d as [|[k' v'] d IH]; simpl; [reflexivity|].
  destruct (String.eqb k' k); simpl; [discriminate|].
  intros H. rewrite (IH H). reflexivity.
Qed.

Lemma dict_del_present (d : dict) (k : string) :
  dict_contains d k = true ->
  exists before v after,
    d = before ++ (k, v) :: after
    /\ ~ In k (map fst before)
    /\ dict_del d k = Ok (before ++ after).
Proof.
  unfold dict_contains. induction d as [|[k' v'] d IH]; simpl; [discriminate|].
  destruct (String.eqb k' k) eqn:E; simpl.
  - intros _. apply String.eqb_eq in E. subst k'.
    exists [], v', d. split; [reflexivity|]. split; [intros []|reflexivity].
  - intros H. destruct (IH H) as [before [v [after [-> [Hb ->]]]]].
    exists ((k', v') :: before), v, after. split; [reflexivity|].
    split; [|reflexivity]. simpl. intros [-> | Hin]; [|exact (Hb Hin)].
    rewrite String.eqb_refl in E. discriminate.
Qed.

Lemma dict_get_app (d1 d2 : dict) (k : string) :
  dict_get (d1 ++ d2) k
  = if dict_contains d1 k then dict_get d1 k else dict_get d2 k.
Proof.
  unfold dict_contains. induction d1 as [|[k' v'] d1 IH]; simpl; [reflexivity|].
  destruct (String.eqb k' k); simpl; [reflexivity | exact IH].
Qed.

Lemma dict_get_ok_contains (d : dict) (k v : string) :
  dict_get d k = Ok v -> dict_contains d k = true.
Proof.
  unfold dict_contains. induction d as [|[k' v'] d IH]; simpl; [discriminate|].
  destruct (String.eqb k' k); simpl; [reflexivity | exact IH].
Qed.

Lemma nodup_dict_of_pairs (pairs : list (string * string)) :
  List.NoDup (map fst (dict_of_pairs pairs)).
Proof.
  unfold dict_of_pairs.
  assert (H : forall acc, List.NoDup (map fst acc) ->
            List.NoDup (map fst (fold_left
              (fun d kv => dict_set d (fst kv) (snd kv)) pairs acc))).
  { induction pairs as [|kv pairs IH]; intros acc Hacc; simpl; [exact Hacc|].
    apply IH. apply nodup_dict_set. exact Hacc. }
  apply H. constructor.
Qed.

(** What the decoder returns is a mapping built by assignments. *)
Lemma json_loads_shape (text : string) (d : dict) :
  json_loads text = Ok d -> d = [] \/ exists pairs, d = dict_of_pairs pairs.
Proof.
  unfold json_loads, bind. intros H.
  repeat match type of H with
         | context [match ?x with _ => _ end] => destruct x eqn:?; try discriminate
         end;
    injection H as <-; eauto.
Qed.

Lemma save_then_load (d : dict) (fs : gmap string string) :
  List.NoDup (map fst d) -> load_categories (save_categories d fs) = Ok d.
Proof.
  intros H. unfold load_categories, save_categories.
  rewrite lookup_insert_eq, CategoryStoreFacts.json_loads_dumps.
  rewrite (CategoryStoreFacts.dict_of_pairs_id d H). reflexivity.
Qed.

(** X17.  Whatever the file holds, a JSON object that repeats a name
    included, the mapping the page loads has each name once; so the page
    starts in agreement with its file. *)
Theorem loaded_names_are_distinct :
  forall (fs : gmap string string) (d : dict),
    load_categories fs = Ok d ->
    List.NoDup (map fst d) /\ in_sync (d, fs).
Proof.
  intros fs d Hload.
  assert (Hnd : List.NoDup (map fst d)).
  { unfold load_categories in Hload. destruct (fs !! categories_file) as [text|].
    - destruct (json_loads_shape text d Hload) as [-> | [pairs ->]];
        [constructor | apply nodup_dict_of_pairs].
    - injection Hload as <-. constructor. }
  split; [exact Hnd|]. split; [exact Hnd | exact Hload].
Qed.

(** A file whose object gives the name [a] twice. *)
Lemma loaded_names_are_distinct_witness :
  List.NoDup (map fst [("a", "2")])
  /\ in_sync ([("a", "2")],
              {[categories_file := json_dumps [("a", "1"); ("a", "2")]]}).
Proof.
  apply (loaded_names_are_distinct
           {[categories_file := json_dumps [("a", "1"); ("a", "2")]]}
           [("a", "2")]).
  reflexivity.
Defined.

(** X18.  Each button of the category editor keeps the page and its file
    in agreement: after an import, an addition or a deletion the names
    of the mapping are distinct and the file, read again, gives the
    mapping of the page. *)
Theorem buttons_keep_file_in_sync :
  forall (st : state) (name keywords : string),
    in_sync st ->
    in_sync (import_preset name keywords st)
    /\ in_sync (add_category name st)
    /\ forall st', delete_category name st = Ok st' -> in_sync st'.
Proof.
  intros [d fs] name keywords [Hnd Hload]. cbn [fst snd] in *.
  split; [|split].
  - unfold import_preset, in_sync. cbn [fst snd].
    pose proof (nodup_dict_set d name keywords Hnd) as H.
    split; [exact H | apply save_then_load; exact H].
  - unfold add_category. cbn [fst snd].
    destruct (is_empty name); [split; assumption|].
    destruct (dict_contains d name); [split; assumption|].
    unfold in_sync. cbn [fst snd].
    pose proof (nodup_dict_set d name EmptyString Hnd) as H.
    split; [exact H | apply save_then_load; exact H].
  - intros st'. unfold delete_category. cbn [fst snd].
    destruct (dict_contains d name) eqn:E.
    + destruct (dict_del_present d name E) as [before [v [after [-> [_ ->]]]]].
      cbn [bind]. intros [= <-]. unfold in_sync. cbn [fst snd].
      assert (H : List.NoDup (map fst (before ++ after))).
      { rewrite map_app in *. simpl in Hnd.
        apply (NoDup_remove_1 _ _ _ Hnd). }
      split; [exact H | apply save_then_load; exact H].
    + rewrite (dict_del_absent d name E). discriminate.
Qed.

(** The sample store, saved, and the buttons pressed on [Niños]. *)
Lemma buttons_keep_file_in_sync_witness :
  in_sync (import_preset "Niños" "kids"
             (Examples.sample_categories,
              save_categories Examples.sample_categories ∅))
  /\ in_sync (add_category "Niños"
                (Examples.sample_categories,
                 save_categories Examples.sample_categories ∅))
  /\ forall st',
       delete_category "Niños"
         (Examples.sample_categories,
          save_categories Examples.sample_categories ∅) = Ok st' ->
       in_sync st'.
Proof.
  apply (buttons_keep_file_in_sync
           (Examples.sample_categories,
            save_categories Examples.sample_categories ∅) "Niños" "kids").
  split.
  - repeat constructor; simpl; intuition discriminate.
  - reflexivity.
Defined.

(** X19.  The add button never changes a category that exists.  With an
    empty name or a name already present it changes nothing and writes
    no file; with a new name it appends the category after the others,
    with the empty keyword text, and leaves the keywords of every other
    category as they were. *)
Theorem add_button_never_overwrites :
  forall (st : state) (name : string),
    (name = EmptyString \/ dict_contains (fst st) name = true ->
       add_category name st = st)
    /\ (name <> EmptyString -> dict_contains (fst st) name = false ->
          fst (add_category name st) = fst st ++ [(name, EmptyString)]
          /\ snd (add_category name st)
             = save_categories (fst st ++ [(name, EmptyString)]) (snd st)
          /\ dict_get (fst (add_category name st)) name = Ok EmptyString)
    /\ (forall k v, dict_get (fst st) k = Ok v ->
          dict_get (fst (add_category name st)) k = Ok v).
Proof.
  intros [d fs] name. cbn [fst snd]. split; [|split].
  - unfold add_category. cbn [fst snd]. intros [-> | H]; [reflexivity|].
    rewrite H. destruct (is_empty name); reflexivity.
  - intros Hne Habs.
    assert (He : is_empty name = false) by (destruct name; [congruence | reflexivity]).
    unfold add_category. cbn [fst snd]. rewrite Habs, He. cbn [fst snd].
    rewrite (CategoryStoreFacts.dict_set_fresh d name EmptyString
               (proj1 (dict_contains_false d name) Habs)).
    split; [reflexivity|]. split; [reflexivity|].
    rewrite dict_get_app, Habs. cbn [dict_get].
    rewrite String.eqb_refl. reflexivity.
  - intros k v Hk. unfold add_category. cbn [fst snd].
    destruct (is_empty name); [exact Hk|].
    destruct (dict_contains d name) eqn:E; [exact Hk|]. cbn [fst].
    rewrite dict_get_set_ne; [exact Hk|].
    intros ->. rewrite (dict_get_ok_contains d k v Hk) in E. discriminate.
Qed.

(** The sample store and a name it does not hold. *)
Lemma add_button_never_overwrites_witness :
  ("Deportistas" = EmptyString
   \/ dict_contains Examples.sample_categories "Deportistas" = true ->
     add_category "Deportistas" (Examples.sample_categories, ∅)
     = (Examples.sample_categories, ∅))
  /\ ("Deportistas" <> EmptyString ->
      dict_contains Examples.sample_categories "Deportistas" = false ->
        fst (add_category "Deportistas" (Examples.sample_categories, ∅))
        = Examples.sample_categories ++ [("Deportistas", EmptyString)]
        /\ snd (add_category "Deportistas" (Examples.sample_categories, ∅))
           = save_categories
               (Examples.sample_categories ++ [("Deportistas", EmptyString)]) ∅
        /\ dict_get (fst (add_category "Deportistas" (Examples.sample_categories, ∅)))
             "Deportistas" = Ok EmptyString)
  /\ (forall k v, dict_get Examples.sample_categories k = Ok v ->
        dict_get (fst (add_category "Deportistas" (Examples.sample_categories, ∅))) k
        = Ok v).
Proof.
  exact (add_button_never_overwrites (Examples.sample_categories, ∅) "Deportistas").
Defined.

(** X20.  The import button sets the keywords of the preset, replacing
    what the category held and keeping its place in the list, or
    appending the category when it is new; every other category keeps its
    keywords, and pressing the button again changes nothing more. *)
Theorem import_button_replaces_keywords :
  forall (st : state) (name keywords : string),
    dict_get (fst (import_preset name keywords st)) name = Ok keywords
    /\ map fst (fst (import_preset name keywords st))
       = (if dict_contains (fst st) name then map fst (fst st)
          else map fst (fst st) ++ [name])
    /\ (forall k, k <> name ->
          dict_get (fst (import_preset name keywords st)) k = dict_get (fst st) k)
    /\ import_preset name keywords (import_preset name keywords st)
       = import_preset name keywords st.
Proof.
  intros [d fs] name keywords. unfold import_preset. cbn [fst snd].
  split; [apply dict_get_set_eq|]. split; [apply keys_dict_set|]. split.
  - intros k Hk. apply dict_get_set_ne. congruence.
  - rewrite dict_set_twice. unfold save_categories.
    rewrite insert_insert_eq. reflexivity.
Qed.

(** X21.  The delete button of a listed category removes that category
    and no other: the name is gone, the others keep their keywords and
    their order, and the list is one shorter.  Deleting a name that is
    not listed raises [KeyError] and writes no file. *)
Theorem delete_button_removes_one :
  forall (st : state) (name : string),
    List.NoDup (map fst (fst st)) ->
    (dict_contains (fst st) name = true ->
       exists before keywords after,
         fst st = before ++ (name, keywords) :: after
         /\ delete_category name st
            = Ok (before ++ after, save_categories (before ++ after) (snd st))
         /\ dict_contains (before ++ after) name = false
         /\ forall k, k <> name ->
              dict_get (before ++ after) k = dict_get (fst st) k)
    /\ (dict_contains (fst st) name = false ->
          delete_category name st = Raise (KeyError name)).
Proof.
  intros [d fs] name Hnd. cbn [fst snd] in *. split.
  - intros Hin.
    destruct (dict_del_present d name Hin) as [before [v [after [-> [Hb Hdel]]]]].
    exists before, v, after. split; [reflexivity|].
    unfold delete_category. cbn [fst snd]. rewrite Hdel. cbn [bind].
    split; [reflexivity|]. split.
    + apply dict_contains_false. rewrite map_app in *. simpl in Hnd.
      apply (NoDup_remove_2 _ _ _ Hnd).
    + intros k Hk. rewrite !dict_get_app. destruct (dict_contains before k);
        [reflexivity|]. simpl. apply String.eqb_neq in Hk.
      rewrite String.eqb_sym, Hk. reflexivity.
  - intros Habs. unfold delete_category. cbn [fst snd].
    rewrite (dict_del_absent d name Habs). reflexivity.
Qed.

(** The sample store and its category without keywords. *)
Lemma delete_button_removes_one_witness :
  (dict_contains Examples.sample_categories "Sin palabras" = true ->
     exists before keywords after,
       Examples.sample_categories = before ++ ("Sin palabras", keywords) :: after
       /\ delete_category "Sin palabras" (Examples.sample_categories, ∅)
          = Ok (before ++ after, save_categories (before ++ after) ∅)
       /\ dict_contains (before ++ after) "Sin palabras" = false
       /\ forall k, k <> "Sin palabras" ->
            dict_get (before ++ after) k = dict_get Examples.sample_categories k)
  /\ (dict_contains Examples.sample_categories "Sin palabras" = false ->
        delete_category "Sin palabras" (Examples.sample_categories, ∅)
        = Raise (KeyError "Sin palabras")).
Proof.
  apply (delete_button_removes_one (Examples.sample_categories, ∅) "Sin palabras").
  repeat constructor; simpl; intuition discriminate.
Defined.

Lemma split_first (c : ascii) (s : string) :
  exists piece pieces, split c s = piece :: pieces.
Proof.
  induction s as [|a s [piece [pieces IH]]]; simpl; [eauto|].
  destruct (Ascii.eqb a c); [eauto|]. rewrite IH. eauto.
Qed.

(** X22.  The number of keywords shown beside a category in the overview
    is the number the editor shows for it: the pieces of the keyword text
    that are not blank.  A category shown with no keyword at all, as a
    newly added one is, matches every review whose content is present. *)
Theorem keyword_counter :
  forall (str_of_scalar : value -> string) (raw : string),
    keyword_count raw = List.length (KeywordMatch.editor_keyword_list raw)
    /\ keyword_count EmptyString = 0%nat
    /\ (keyword_count raw = 0%nat ->
        forall text, isna text = false ->
          KeywordMatch.match_keywords str_of_scalar text
            (map strip (split "," raw)) = true).
Proof.
  intros str_of_scalar raw. split; [|split; [reflexivity|]].
  - unfold keyword_count, KeywordMatch.editor_keyword_list. rewrite length_map.
    destruct raw; reflexivity.
  - intros Hzero text Htext. unfold KeywordMatch.match_keywords. rewrite Htext.
    apply existsb_exists. exists EmptyString. split; [|apply PyFacts.contains_empty].
    destruct (split_first "," raw) as [piece [pieces Hs]].
    assert (Hblank : strip piece = EmptyString).
    { unfold keyword_count in Hzero. destruct raw as [|a raw].
      - simpl in Hs. injection Hs as <- _. reflexivity.
      - cbn [is_empty] in Hzero. rewrite Hs in Hzero. simpl in Hzero.
        destruct (strip piece); [reflexivity | discriminate]. }
    rewrite Hs. simpl. left. exact Hblank.
Qed.

(** A keyword text of a comma between blanks. *)
Lemma keyword_counter_witness :
  keyword_count " , " = 0%nat
  /\ KeywordMatch.match_keywords Examples.no_str (VStr "fine")
       (map strip (split "," " , ")) = true.
Proof.
  split; [reflexivity|].
  apply (proj2 (proj2 (keyword_counter Examples.no_str " , ")));
    reflexivity.
Defined.

End CategoryPageFacts.
